(** * update_sit_status.py: the Jenkins-to-Jira status updater

    A shallow embedding of [src/update_sit_status.py].  The script talks to
    three things outside itself: the [logging] module, the Jenkins JSON API
    (through [requests]) and the Jira server (through the [jira] client).
    Every such interaction is recorded as an [event]; the answers of the
    outside world come from a [World] record, so that each function of the
    script is an executable Rocq function returning the events it caused
    together with its Python outcome (a returned value or a raised
    exception). *)

From Stdlib Require Import ZArith NArith String Ascii List Bool.
From stdpp Require Import base option list gmap strings pretty.

Set Default Proof Using "Type".
Local Open Scope N_scope.

(** ** Python strings

    A Python [str] is a sequence of Unicode code points.  The string
    literals of the script are all ASCII; [lit] reads one off a Rocq
    string. *)

Definition char : Type := N.
Definition str : Type := list char.

Definition lit (x : string) : str :=
  List.map N_of_ascii (list_ascii_of_string x).

(** The double quote, which the f-string of the search embeds. *)
Definition dquote : str := [34].

(** [str(n)] for a non-negative integer: its decimal digits. *)
Definition str_of_nat (n : nat) : str := lit (pretty n).
Definition str_of_N (n : N) : str := lit (pretty n).

(** [s.endswith(c)] for a one-character suffix. *)
Definition endswith (s : str) (c : char) : bool :=
  match last s with
  | Some d => bool_decide (d = c)
  | None => false
  end.

Definition startswith (s p : str) : bool := bool_decide (p `prefix_of` s).

Arguments lit : simpl never.
Arguments str_of_nat : simpl never.
Arguments str_of_N : simpl never.

(** ** Python values

    What [response.json()] can return and what an [argparse] namespace
    holds: [None], booleans, integers, floats (by their 64 bits), strings,
    lists and dictionaries with string keys. *)

#[local] Set Warnings "-register-all".
Inductive value : Type :=
| VNone
| VBool (b : bool)
| VInt (z : Z)
| VFloat (bits : N)
| VStr (s : str)
| VList (l : list value)
| VDict (d : gmap str value).
#[local] Set Warnings "register-all".

(** [v == s] for a string literal [s]: only an equal string is equal. *)
Definition eq_str (v : value) (s : str) : bool :=
  match v with
  | VStr t => bool_decide (t = s)
  | _ => false
  end.

(** ** Exceptions *)

(** What [requests.get] itself raises (all of them subclasses of
    [requests.exceptions.RequestException]). *)
Inductive requests_error : Type :=
| Timeout
| ConnectionError
| MissingSchema
| InvalidSchema
| InvalidURL
| TooManyRedirects.

Inductive exn : Type :=
| AssertionError
| AttributeError (what : str)
| KeyError (key : str)
| TypeError
| RequestException (e : requests_error)
| HTTPError (status_code : N)
| JSONDecodeError
| JIRAError (text : str).

Inductive result (A : Type) : Type :=
| Returned (a : A)
| Raised (e : exn).
Arguments Returned {A} a.
Arguments Raised {A} e.

(** ** Events *)

Inductive level : Type := INFO | ERROR.

(** A Jira issue, as far as the script sees one: its key. *)
Record Issue : Type := { key : str }.

Inductive event : Type :=
| Log (lvl : level) (msg : str)
| HttpGet (url : str) (timeout : N)
| JiraConnect (server user passwd : value)
| JiraSearch (jql : str)
| IssueUpdate (issue : Issue) (fields : value).

(** The calls that reach the issue tracker. *)
Definition is_jira_call (e : event) : bool :=
  match e with
  | JiraConnect _ _ _ | JiraSearch _ | IssueUpdate _ _ => true
  | _ => false
  end.

Definition is_issue_update (e : event) : bool :=
  match e with IssueUpdate _ _ => true | _ => false end.

Definition jira_calls (t : list event) : list event := List.filter is_jira_call t.

(** ** The monad of the script: a trace of events and a Python outcome *)

Definition M (A : Type) : Type := list event * result A.

Definition ret {A} (a : A) : M A := ([], Returned a).
Definition raise {A} (e : exn) : M A := ([], Raised e).
Definition emit (e : event) : M unit := ([e], Returned tt).

Definition bind {A B} (m : M A) (k : A -> M B) : M B :=
  match m with
  | (t, Returned a) => let '(t', r) := k a in (t ++ t', r)
  | (t, Raised e) => (t, Raised e)
  end.

Declare Scope py_scope.
Delimit Scope py_scope with py.
Notation "x <- m ;; k" := (bind m (fun x => k))
  (at level 100, m at next level, right associativity) : py_scope.
Notation "m ;;; k" := (bind m (fun _ => k))
  (at level 100, right associativity) : py_scope.
Local Open Scope py_scope.

(** [try: body except E as err: handler]: [handler] says which exceptions it
    takes ([Some]) and which pass through ([None]). *)
Definition try_except {A} (body : M A) (handler : exn -> option (M A)) : M A :=
  match body with
  | (t, Raised e) =>
      match handler e with
      | Some h => let '(t', r) := h in (t ++ t', r)
      | None => (t, Raised e)
      end
  | ok => ok
  end.

(** [for x in xs: body x]. *)
Fixpoint for_each {A} (xs : list A) (body : A -> M unit) : M unit :=
  match xs with
  | [] => ret tt
  | x :: xs' => body x ;;; for_each xs' body
  end.

Definition trace {A} (m : M A) : list event := fst m.
Definition outcome {A} (m : M A) : result A := snd m.

Definition logging_info (msg : str) : M unit := emit (Log INFO msg).
Definition logging_error (msg : str) : M unit := emit (Log ERROR msg).

(** [assert b]. *)
Definition py_assert (b : bool) : M unit :=
  if b then ret tt else raise AssertionError.

(** [d[k]]: a [KeyError] on a dictionary without the key, a [TypeError] on
    anything a string cannot index. *)
Definition getitem (d : value) (k : str) : M value :=
  match d with
  | VDict m =>
      match m !! k with
      | Some v => ret v
      | None => raise (KeyError k)
      end
  | _ => raise TypeError
  end.

(** ** The pattern of an unlabelled build

    [re.compile(r"^#\d*$")], matched with [pattern.match].  The pattern is
    kept as data and run by a small backtracking matcher that has the
    semantics of Python's [re] for the constructs used: [^] holds at the
    start of the string, [$] at its end and also just before a newline that
    ends it, and on a [str] pattern [\d] takes every decimal digit of the
    Unicode database (category Nd), the ASCII digits among them. *)

Inductive char_class : Type :=
| Chr (c : char)
| Digit.

Inductive atom : Type :=
| Bol
| Eol
| One (cls : char_class)
| Star (cls : char_class).

Definition regex : Type := list atom.

Definition is_ascii_digit (c : char) : bool := (48 <=? c) && (c <=? 57).

Section Regex.
(** The decimal digits of the interpreter's Unicode database outside
    ASCII. *)
Variable nd : char -> bool.

Definition accepts (cls : char_class) (c : char) : bool :=
  match cls with
  | Chr d => bool_decide (c = d)
  | Digit => is_ascii_digit c || nd c
  end.

Definition at_eol (s : str) : bool :=
  match s with
  | [] => true
  | [10] => true
  | _ => false
  end.

(** Does [re] match at the current position, where [s] is what is left of
    the string and [at_start] tells whether nothing has been read yet. *)
Fixpoint match_here (re : regex) (at_start : bool) (s : str) : bool :=
  match re with
  | [] => true
  | Bol :: re' => at_start && match_here re' at_start s
  | Eol :: re' => at_eol s && match_here re' at_start s
  | One cls :: re' =>
      match s with
      | c :: s' => accepts cls c && match_here re' false s'
      | [] => false
      end
  | Star cls :: re' =>
      (fix star (at_start : bool) (s : str) : bool :=
         match s with
         | c :: s' =>
             (accepts cls c && star false s') || match_here re' at_start s
         | [] => match_here re' at_start s
         end) at_start s
  end.

(** [pattern.match(s)]: a match at the beginning of [s]. *)
Definition re_match (re : regex) (s : str) : bool := match_here re true s.
End Regex.

Definition build_number_pattern : regex := [Bol; One (Chr 35); Star Digit; Eol].

(** ** The outside world *)

(** The response [requests.get] hands back: its status code, and the value
    its body decodes to when the body is JSON. *)
Record Response : Type := { status_code : N; body_json : option value }.

(** The client object the [JIRA] constructor returns. *)
Record JiraClient : Type := { session : N }.

Record World : Type := {
  (** the decimal digits (category Nd) of the Unicode database outside ASCII *)
  unicode_Nd : char -> bool;
  (** [requests.get(url, timeout=t)], redirects followed *)
  http_get : str -> N -> requests_error + Response;
  (** [JIRA(server, basic_auth=(user, passwd))] *)
  jira_connect : value -> value -> value -> result JiraClient;
  (** [jira.search_issues(jql)] *)
  jira_search : JiraClient -> str -> result (list Issue);
  (** [issue.update(fields=...)]: the exception it raises, if any *)
  jira_update : Issue -> value -> option exn
}.

(** The instance of the batch class: what the script reads of it is
    [self.args], the namespace [argparse] filled. *)
Record JiraStatusUpdater : Type := { args : gmap str value }.

(** [ns.name] on a namespace. *)
Definition getattr (ns : gmap str value) (name : str) : M value :=
  match ns !! name with
  | Some v => ret v
  | None => raise (AttributeError name)
  end.

(** [response.raise_for_status()]: [requests] raises [HTTPError] for the
    client errors (4xx) and the server errors (5xx), and for no other
    status. *)
Definition raise_for_status (r : Response) : M unit :=
  if (400 <=? status_code r) && (status_code r <? 600)
  then raise (HTTPError (status_code r))
  else ret tt.

(** [response.json()]. *)
Definition response_json (r : Response) : M value :=
  match body_json r with
  | Some v => ret v
  | None => raise JSONDecodeError
  end.

(** The JQL text of the search, the f-string of [update_jira_status]. *)
Definition search_query (release_name : str) (customfield_number : N) : str :=
  lit "fixVersion=" ++ release_name ++ lit " AND cf[" ++
  str_of_N customfield_number ++ lit "]=" ++
  dquote ++ lit "Pending automated test" ++ dquote.

(** The [fields] dictionary of the update:
    [{f'customfield_{n}': {'value': new_value}}]. *)
Definition update_fields (customfield_number : N) (new_value : str) : value :=
  VDict {[ lit "customfield_" ++ str_of_N customfield_number :=
             VDict {[ lit "value" := VStr new_value ]} ]}.

Section Script.
Variable w : World.

Definition requests_get (url : str) (timeout : N) : M Response :=
  emit (HttpGet url timeout) ;;;
  match http_get w url timeout with
  | inl e => raise (RequestException e)
  | inr r => ret r
  end.

(** [jenkins_query(url)].  The argument is whatever [self.args.jenkins_url]
    holds; a value that is no string has no [endswith]. *)
Definition jenkins_query (url : value) : M value :=
  match url with
  | VStr u =>
      py_assert (endswith u 47) ;;;
      logging_info (lit "Fetching Jenkins data from " ++ u) ;;;
      response <- requests_get (u ++ lit "api/json") 60 ;;
      raise_for_status response ;;;
      response_json response
  | _ => raise (AttributeError (lit "endswith"))
  end.

Variable self : JiraStatusUpdater.

Definition JIRA (server user passwd : value) : M JiraClient :=
  emit (JiraConnect server user passwd) ;;;
  match jira_connect w server user passwd with
  | Returned c => ret c
  | Raised e => raise e
  end.

(** [jira_login(self)]: the client, or [None] after a [JIRAError], which is
    the one exception the [except] clause takes. *)
Definition jira_login : M (option JiraClient) :=
  try_except
    (server <- getattr (args self) (lit "jira_url") ;;
     user <- getattr (args self) (lit "jira_user") ;;
     passwd <- getattr (args self) (lit "jira_passwd") ;;
     jira <- JIRA server user passwd ;;
     logging_info (lit "Successfully logged into jira") ;;;
     ret (Some jira))
    (fun err =>
       match err with
       | JIRAError text =>
           Some (logging_error (lit "Login to JIRA failed because " ++ text) ;;;
                 ret None)
       | _ => None
       end).

(** [jira.search_issues(jql)] on what [jira_login] returned; [None] has no
    such attribute. *)
Definition search_issues (jira : option JiraClient) (jql : str) : M (list Issue) :=
  match jira with
  | Some c =>
      emit (JiraSearch jql) ;;;
      match jira_search w c jql with
      | Returned l => ret l
      | Raised e => raise e
      end
  | None => raise (AttributeError (lit "search_issues"))
  end.

Definition issue_update (issue : Issue) (fields : value) : M unit :=
  emit (IssueUpdate issue fields) ;;;
  match jira_update w issue fields with
  | Some e => raise e
  | None => ret tt
  end.

(** [update_jira_status(self, release_name, customfield_number, new_value)].
    [if issues:] is the truth value of a list: it is not empty. *)
Definition update_jira_status
    (release_name : str) (customfield_number : N) (new_value : str) : M unit :=
  logging_info (lit "Searching for Jira issues...") ;;;
  jira <- jira_login ;;
  issues <- search_issues jira (search_query release_name customfield_number) ;;
  match issues with
  | _ :: _ =>
      logging_info (lit "Updating " ++ str_of_nat (length issues) ++
                    lit " Jira issues to Success (automated regression test)") ;;;
      for_each issues (fun issue =>
        issue_update issue (update_fields customfield_number new_value)) ;;;
      logging_info (str_of_nat (length issues) ++ lit " Jira issues were updated")
  | [] =>
      logging_info (lit "No issues found in release: " ++ release_name)
  end.

(** [task1_check_jenkins_release(self)].  [pattern.match] raises a
    [TypeError] on a display name that is no string. *)
Definition task1_check_jenkins_release : M unit :=
  url <- getattr (args self) (lit "jenkins_url") ;;
  jenkins_data <- jenkins_query url ;;
  build_display_name <- getitem jenkins_data (lit "displayName") ;;
  match build_display_name with
  | VStr name =>
      if re_match (unicode_Nd w) build_number_pattern name
      then logging_info (name ++ lit " is an unlabelled release. Nothing to do")
      else
        build_result <- getitem jenkins_data (lit "result") ;;
        if eq_str build_result (lit "SUCCESS")
        then update_jira_status name 10803
               (lit "Success (automated regression test)")
        else logging_error (lit "Labelled release: " ++ name ++
                            lit " failed. Nothing to do")
  | _ => raise TypeError
  end.

End Script.

(** A trace in which the sync did not start: its opening line is absent and
    the tracker was not called. *)
Definition quiet (t : list event) : Prop :=
  ~ In (Log INFO (lit "Searching for Jira issues...")) t /\ jira_calls t = [].

(** ** The command line

    [JiraStatusUpdater.__init__] adds four options to the parser that the
    batch base class has made.  That class lives outside the script: its
    parser is taken as it comes, a list of option actions, and the command
    line is read the way [argparse] reads it for option actions.  An
    option is given as [--name value] or [--name=value], by its full name
    or by a prefix that fits one option string only; [-h] and [--help]
    print the help and exit.  What [argparse] would report as a usage
    error is [None] here, and so are the command lines that are left out:
    the [--] separator, positional arguments, bundles of one-letter
    options and values that begin with a dash. *)

Inductive action_kind : Type :=
| Store                      (** takes one argument and stores it *)
| StoreConst (c : value)     (** takes none and stores [c] *)
| Help.                      (** prints the help and exits *)

Record Action : Type := {
  option_strings : list str;
  dest : str;
  default : value;
  kind : action_kind
}.

Definition ArgumentParser : Type := list Action.

(** [os.getenv(name)]: the value of the variable, or [None]. *)
Definition getenv (environ : gmap str str) (name : str) : value :=
  match environ !! name with
  | Some v => VStr v
  | None => VNone
  end.

(** The attribute an option is stored under: its option string without the
    leading dashes, the inner dashes turned into underscores. *)
Fixpoint lstrip_dashes (s : str) : str :=
  match s with
  | 45 :: s' => lstrip_dashes s'
  | _ => s
  end.

Definition dest_of (flag : str) : str :=
  List.map (fun c => if c =? 45 then 95 else c) (lstrip_dashes flag).

(** The option strings of a parser, each with its action. *)
Definition option_table (p : ArgumentParser) : list (str * Action) :=
  flat_map (fun a => List.map (fun o => (o, a)) (option_strings a)) p.

Definition find_option (p : ArgumentParser) (o : str) : option Action :=
  snd <$> List.find (fun oa => bool_decide (fst oa = o)) (option_table p).

(** [parser.add_argument(flag, default=v, help=...)]: a [Store] action; an
    option string that is taken already is an [ArgumentError] ([None]). *)
Definition store_action (flag key : str) (v : value) : Action :=
  {| option_strings := [flag]; dest := key; default := v; kind := Store |}.

Definition add_argument (p : ArgumentParser) (flag : str) (v : value)
    : option ArgumentParser :=
  match find_option p flag with
  | Some _ => None
  | None => Some (p ++ [store_action flag (dest_of flag) v])
  end.

(** [JiraStatusUpdater.__init__], on the parser [super().__init__()] left:
    the defaults are read from the environment when the object is made. *)
Definition JiraStatusUpdater__init__
    (environ : gmap str str) (batch_parser : ArgumentParser)
    : option ArgumentParser :=
  p ← add_argument batch_parser (lit "--jenkins_url")
        (getenv environ (lit "JENKINS_URL"));
  p ← add_argument p (lit "--jira_url") (getenv environ (lit "JIRA_URL"));
  p ← add_argument p (lit "--jira_user") (getenv environ (lit "JIRA_USER"));
  add_argument p (lit "--jira_passwd") (getenv environ (lit "JIRA_PASSWD")).

(** [s.split('=', 1)] when [s] has an equals sign. *)
Fixpoint split_eq (s : str) : option (str * str) :=
  match s with
  | [] => None
  | c :: r =>
      if c =? 61 then Some ([], r)
      else match split_eq r with
           | Some (a, b) => Some (c :: a, b)
           | None => None
           end
  end.

(** What a token of the command line is. *)
Inductive token_class : Type :=
| Positional
| Optional (a : Action) (explicit_arg : option str)
| Ambiguous
| Unknown.

(** The abbreviations a token can stand for: for a token with two dashes
    the option strings that begin with it (up to its equals sign), for a
    token with one dash the option string of its first two characters,
    the rest being the argument, and the option strings that begin with
    the token. *)
Definition get_option_tuples (p : ArgumentParser) (tok : str)
    : list (Action * option str) :=
  match tok with
  | 45 :: c :: rest =>
      if c =? 45 then
        let '(prefix, explicit_arg) :=
          match split_eq tok with
          | Some (a, b) => (a, Some b)
          | None => (tok, None)
          end in
        List.map (fun oa => (snd oa, explicit_arg))
          (List.filter (fun oa => startswith (fst oa) prefix) (option_table p))
      else
        flat_map (fun oa =>
                    if bool_decide (fst oa = [45; c]) then [(snd oa, Some rest)]
                    else if startswith (fst oa) tok then [(snd oa, None)]
                    else [])
          (option_table p)
  | _ => []
  end.

Definition parse_optional (p : ArgumentParser) (tok : str) : token_class :=
  match tok with
  | 45 :: _ =>
      if bool_decide (tok = [45; 45]) then Unknown
      else
        match find_option p tok with
        | Some a => Optional a None
        | None =>
            match tok with
            | [_] => Positional
            | _ =>
                match
                  match split_eq tok with
                  | Some (o, v) =>
                      match find_option p o with
                      | Some a => Some (Optional a (Some v))
                      | None => None
                      end
                  | None => None
                  end
                with
                | Some cls => cls
                | None =>
                    match get_option_tuples p tok with
                    | [] => Unknown
                    | [(a, explicit_arg)] => Optional a explicit_arg
                    | _ => Ambiguous
                    end
                end
            end
        end
  | _ => Positional
  end.

(** The namespace before the command line is read: each action's default
    under its [dest], the first action of a [dest] winning; the help action
    has none. *)
Definition set_default (ns : gmap str value) (a : Action) : gmap str value :=
  match kind a, ns !! dest a with
  | Help, _ => ns
  | _, Some _ => ns
  | _, None => <[dest a := default a]> ns
  end.

Definition defaults (p : ArgumentParser) : gmap str value :=
  foldl set_default ∅ p.

(** Reading the command line, option by option. *)
Fixpoint consume (p : ArgumentParser) (argv : list str) (ns : gmap str value)
    : option (gmap str value) :=
  match argv with
  | [] => Some ns
  | tok :: rest =>
      match parse_optional p tok with
      | Optional a explicit_arg =>
          match kind a, explicit_arg with
          | Store, Some v => consume p rest (<[dest a := VStr v]> ns)
          | Store, None =>
              match rest with
              | v :: rest' =>
                  match parse_optional p v with
                  | Positional => consume p rest' (<[dest a := VStr v]> ns)
                  | _ => None
                  end
              | [] => None
              end
          | StoreConst c, None => consume p rest (<[dest a := c]> ns)
          | StoreConst _, Some _ => None
          | Help, _ => None
          end
      | _ => None
      end
  end.

(** [parser.parse_args(argv)]. *)
Definition parse_args (p : ArgumentParser) (argv : list str)
    : option (gmap str value) :=
  consume p argv (defaults p).

(** A token that gives the option stored under [k], and a command line
    that has one. *)
Definition selects (p : ArgumentParser) (k : str) (tok : str) : bool :=
  match parse_optional p tok with
  | Optional a _ => bool_decide (dest a = k)
  | _ => false
  end.

Definition supplied (p : ArgumentParser) (k : str) (argv : list str) : bool :=
  existsb (selects p k) argv.

(** A parser of the base class to run on: the help action and a flag. *)
Definition example_batch_parser : ArgumentParser :=
  [ {| option_strings := [lit "-h"; lit "--help"]; dest := lit "help";
       default := VNone; kind := Help |};
    {| option_strings := [lit "-v"; lit "--verbose"]; dest := lit "verbose";
       default := VBool false; kind := StoreConst (VBool true) |} ].

Definition example_environ : gmap str str :=
  {[ lit "JENKINS_URL" := lit "http://ci/job/sit/lastBuild/";
     lit "JIRA_URL" := lit "http://jira";
     lit "JIRA_USER" := lit "robot" ]}.

Definition example_argv : list str := [lit "--jira_user"; lit "bob"; lit "-v"].

(** The parser and the namespace of the example, [[]] and [∅] standing for
    a failure. *)
Definition example_parser : ArgumentParser :=
  from_option id [] (JiraStatusUpdater__init__ example_environ example_batch_parser).

Definition example_namespace : gmap str value :=
  from_option id ∅ (parse_args example_parser example_argv).

(** What an event of a sync with the given arguments has to look like: a
    search carries the query of the release and the field, an update the
    field and the new value. *)
Definition sync_event
    (release_name : str) (customfield_number : N) (new_value : str)
    (e : event) : Prop :=
  match e with
  | JiraSearch jql => jql = search_query release_name customfield_number
  | IssueUpdate _ fields => fields = update_fields customfield_number new_value
  | _ => True
  end.

(** ** The unlabelled pattern in the words of the specification

    [^#<digits>$]: a hash sign followed by digits and nothing else.  It is
    read at its widest (any number of digits, zero included, and every
    character [\d] takes), so that what is proved of it holds of each
    narrower reading. *)
Definition hash_then_digits (nd : char -> bool) (s : str) : bool :=
  match s with
  | 35 :: ds => forallb (accepts nd Digit) ds
  | _ => false
  end.

(** ** Worlds and instances to run the script on *)

Definition example_build (name : str) (res : value) : value :=
  VDict {[ lit "displayName" := VStr name; lit "result" := res ]}.

Definition example_args : gmap str value :=
  {[ lit "jenkins_url" := VStr (lit "http://ci/job/sit/lastBuild/");
     lit "jira_url" := VStr (lit "http://jira");
     lit "jira_user" := VStr (lit "robot");
     lit "jira_passwd" := VStr (lit "secret") ]}.

Definition example_self : JiraStatusUpdater := {| args := example_args |}.

(** Arabic-Indic digits stand for the digits outside ASCII. *)
Definition example_world
    (status : N) (body : option value)
    (login : result JiraClient) (found : result (list Issue)) : World :=
  {| unicode_Nd := fun c => (1632 <=? c) && (c <=? 1641);
     http_get := fun _ _ => inr {| status_code := status; body_json := body |};
     jira_connect := fun _ _ _ => login;
     jira_search := fun _ _ => found;
     jira_update := fun _ _ => None |}.

Definition example_issues : list Issue :=
  [ {| key := lit "ECS2-2087" |}; {| key := lit "ECS2-2090" |} ].

(** ** The rest of the script *)

(** [argparser()], the hook of the documentation generator: the parser of
    a fresh instance. *)
Definition argparser (environ : gmap str str) (batch_parser : ArgumentParser)
    : option ArgumentParser :=
  JiraStatusUpdater__init__ environ batch_parser.

(** The instance whose [args] are the namespace of a command line. *)
Definition with_args (ns : gmap str value) : JiraStatusUpdater := {| args := ns |}.



(** A world in which the tracker refuses the update of one issue. *)
Definition example_world_refusing (found : list Issue) (refused : str) : World :=
  {| unicode_Nd := fun c => (1632 <=? c) && (c <=? 1641);
     http_get := fun _ _ =>
       inr {| status_code := 200;
              body_json := Some (example_build (lit "Release-2.3")
                                   (VStr (lit "SUCCESS"))) |};
     jira_connect := fun _ _ _ => Returned {| session := 1 |};
     jira_search := fun _ _ => Returned found;
     jira_update := fun i _ =>
       if bool_decide (key i = refused)
       then Some (JIRAError (lit "HTTP 403")) else None |}.

(** The parser and the namespace of a run with an empty environment and an
    empty command line. *)
Definition example_bare_parser : ArgumentParser :=
  from_option id [] (JiraStatusUpdater__init__ ∅ example_batch_parser).

Definition example_bare_namespace : gmap str value :=
  from_option id ∅ (parse_args example_bare_parser []).

(** * Properties *)

(** ** The monad *)

Lemma M_eta {A} (m : M A) : m = (trace m, outcome m).
Proof. destruct m; reflexivity. Qed.

Lemma bind_ret_l {A B} (a : A) (k : A -> M B) : bind (ret a) k = k a.
Proof. unfold bind, ret. destruct (k a); reflexivity. Qed.

Lemma bind_raise_l {A B} (e : exn) (k : A -> M B) : bind (raise e) k = raise e.
Proof. reflexivity. Qed.

Lemma bind_returned {A B} t (a : A) (k : A -> M B) :
  bind (t, Returned a) k = (t ++ trace (k a), outcome (k a)).
Proof. unfold bind. destruct (k a); reflexivity. Qed.

Lemma bind_raised {A B} t e (k : A -> M B) :
  bind (t, Raised e) k = (t, Raised e).
Proof. reflexivity. Qed.

Lemma bind_emit {B} ev (k : unit -> M B) :
  bind (emit ev) k = (ev :: trace (k tt), outcome (k tt)).
Proof. unfold emit. rewrite bind_returned. reflexivity. Qed.

Lemma trace_pair {A} t (r : result A) : trace (t, r) = t.
Proof. reflexivity. Qed.

Lemma outcome_pair {A} t (r : result A) : outcome (t, r) = r.
Proof. reflexivity. Qed.


Lemma outcome_bind {A B} (m : M A) (k : A -> M B) :
  outcome (bind m k) =
  match outcome m with
  | Returned a => outcome (k a)
  | Raised e => Raised e
  end.
Proof.
  destruct m as [t [a|e]]; [rewrite bind_returned|]; reflexivity.
Qed.

Lemma getattr_some ns k v : ns !! k = Some v -> getattr ns k = ret v.
Proof. unfold getattr. intros ->. reflexivity. Qed.

Lemma getitem_some d k v : d !! k = Some v -> getitem (VDict d) k = ret v.
Proof. unfold getitem. intros ->. reflexivity. Qed.

Lemma jira_calls_app t1 t2 : jira_calls (t1 ++ t2) = jira_calls t1 ++ jira_calls t2.
Proof. apply List.filter_app. Qed.

(** ** The pattern *)

Lemma star_nil nd cls re b :
  match_here nd (Star cls :: re) b [] = match_here nd re b [].
Proof. reflexivity. Qed.

Lemma star_cons nd cls re b c s :
  match_here nd (Star cls :: re) b (c :: s) =
  (accepts nd cls c && match_here nd (Star cls :: re) false s)
  || match_here nd re b (c :: s).
Proof. reflexivity. Qed.

Lemma eol_only nd b s : match_here nd [Eol] b s = at_eol s.
Proof. cbn. apply andb_true_r. Qed.

(** [\d*$] takes exactly a run of digits followed by the end of the string
    or by its final newline. *)
Lemma digits_eol_iff nd b s :
  match_here nd [Star Digit; Eol] b s = true <->
  exists ds tl, s = ds ++ tl /\ forallb (accepts nd Digit) ds = true /\ at_eol tl = true.
Proof.
  revert b. induction s as [|c s IH]; intros b.
  - rewrite star_nil, eol_only. split; [intros _|reflexivity].
    exists [], []. repeat split.
  - rewrite star_cons, eol_only, orb_true_iff, andb_true_iff, IH. split.
    + intros [[Hc (ds & tl & -> & Hds & Htl)]|Heol].
      * exists (c :: ds), tl. cbn [forallb]. rewrite Hc, Hds. repeat split. exact Htl.
      * exists [], (c :: s). repeat split. exact Heol.
    + intros (ds & tl & Heq & Hds & Htl). destruct ds as [|d ds].
      * right. cbn in Heq. subst tl. exact Htl.
      * left. cbn in Heq. injection Heq as -> ->.
        cbn [forallb] in Hds. apply andb_true_iff in Hds as [Hd Hds].
        split; [exact Hd|]. exists ds, tl. repeat split; assumption.
Qed.

(** What the pattern of the script accepts. *)
Lemma build_number_pattern_iff nd s :
  re_match nd build_number_pattern s = true <->
  exists ds tl,
    s = 35 :: ds ++ tl /\ forallb (accepts nd Digit) ds = true /\ at_eol tl = true.
Proof.
  unfold re_match, build_number_pattern.
  change (match_here nd (Bol :: One (Chr 35) :: [Star Digit; Eol]) true s)
    with (true && match s with
                  | c :: s' => accepts nd (Chr 35) c && match_here nd [Star Digit; Eol] false s'
                  | [] => false
                  end).
  cbn [andb]. destruct s as [|c s].
  - split; [discriminate|]. intros (ds & tl & Heq & _). discriminate Heq.
  - rewrite andb_true_iff, digits_eol_iff. cbn [accepts].
    rewrite bool_decide_eq_true. split.
    + intros [-> (ds & tl & -> & H)]. exists ds, tl. split; [reflexivity|exact H].
    + intros (ds & tl & Heq & H). injection Heq as -> ->.
      split; [reflexivity|]. exists ds, tl. split; [reflexivity|exact H].
Qed.

Lemma hash_then_digits_match nd s :
  hash_then_digits nd s = true -> re_match nd build_number_pattern s = true.
Proof.
  intros H. apply build_number_pattern_iff.
  destruct s as [|c ds]; [discriminate|].
  unfold hash_then_digits in H.
  destruct (decide (c = 35)) as [->|Hne].
  - exists ds, []. rewrite app_nil_r. repeat split. exact H.
  - exfalso. destruct c as [|p]; [discriminate|].
    do 6 (destruct p as [p|p|]; try discriminate). congruence.
Qed.

(** ** The Jenkins query *)

Lemma requests_get_eq w url timeout :
  requests_get w url timeout =
    ([HttpGet url timeout],
     match http_get w url timeout with
     | inl e => Raised (RequestException e)
     | inr r => Returned r
     end).
Proof.
  unfold requests_get. rewrite bind_emit.
  destruct (http_get w url timeout); reflexivity.
Qed.

(** A url without the trailing slash stops at the assertion: nothing is
    logged and nothing is requested. *)
Lemma jenkins_query_no_slash w u :
  endswith u 47 = false -> jenkins_query w (VStr u) = ([], Raised AssertionError).
Proof. intros H. unfold jenkins_query. rewrite H. reflexivity. Qed.

(** With the trailing slash the query logs, requests, and then goes by the
    response. *)
Lemma jenkins_query_slash w u :
  endswith u 47 = true ->
  jenkins_query w (VStr u) =
    ([Log INFO (lit "Fetching Jenkins data from " ++ u);
      HttpGet (u ++ lit "api/json") 60],
     match http_get w (u ++ lit "api/json") 60 with
     | inl e => Raised (RequestException e)
     | inr r =>
         if (400 <=? status_code r) && (status_code r <? 600)
         then Raised (HTTPError (status_code r))
         else match body_json r with
              | Some v => Returned v
              | None => Raised JSONDecodeError
              end
     end).
Proof.
  intros H. unfold jenkins_query, raise_for_status, response_json.
  rewrite H. change (py_assert true) with (@ret unit tt). unfold logging_info.
  rewrite bind_ret_l, bind_emit, requests_get_eq.
  destruct (http_get w (u ++ lit "api/json") 60) as [e|r]; [reflexivity|].
  rewrite bind_returned.
  destruct ((400 <=? status_code r) && (status_code r <? 600)); [reflexivity|].
  rewrite bind_ret_l. destruct (body_json r); reflexivity.
Qed.

(** Whatever the url and the answer, the query issues at most its log line
    and its request. *)
Lemma jenkins_query_trace w url :
  trace (jenkins_query w url) = [] \/
  exists u, url = VStr u /\
    trace (jenkins_query w url) =
      [Log INFO (lit "Fetching Jenkins data from " ++ u);
       HttpGet (u ++ lit "api/json") 60].
Proof.
  destruct url as [| | | |u| |]; try (left; reflexivity).
  destruct (endswith u 47) eqn:H.
  - right. exists u. rewrite (jenkins_query_slash _ _ H). split; reflexivity.
  - left. rewrite (jenkins_query_no_slash _ _ H). reflexivity.
Qed.

Lemma jenkins_query_no_jira w url : jira_calls (trace (jenkins_query w url)) = [].
Proof.
  destruct (jenkins_query_trace w url) as [->|(u & _ & ->)]; reflexivity.
Qed.

(** The line the sync opens with is not the line of the query. *)
Lemma jenkins_query_not_searching w url :
  ~ In (Log INFO (lit "Searching for Jira issues...")) (trace (jenkins_query w url)).
Proof.
  destruct (jenkins_query_trace w url) as [->|(u & _ & ->)]; [intros []|].
  intros [H|[H|[]]]; [|discriminate H].
  injection H as H. vm_compute in H. discriminate H.
Qed.

(** C7. The fetch is an HTTP GET of [{url}api/json] with the timeout 60, and
    it requires the trailing slash: a url that does not end in [/] fails
    the assertion with no request issued (indeed with no event at all),
    and a url that ends in [/] gets past the assertion to the request, so
    that the query never ends in an [AssertionError]. *)
Theorem jenkins_query_trailing_slash (w : World) (u : str) :
  (endswith u 47 = false ->
     jenkins_query w (VStr u) = ([], Raised AssertionError)) /\
  (endswith u 47 = true ->
     trace (jenkins_query w (VStr u)) =
       [Log INFO (lit "Fetching Jenkins data from " ++ u);
        HttpGet (u ++ lit "api/json") 60] /\
     outcome (jenkins_query w (VStr u)) <> Raised AssertionError).
Proof.
  split; [apply jenkins_query_no_slash|].
  intros H. rewrite (jenkins_query_slash _ _ H). split; [reflexivity|].
  rewrite outcome_pair.
  destruct (http_get w (u ++ lit "api/json") 60) as [e|r]; [discriminate|].
  destruct ((400 <=? status_code r) && (status_code r <? 600)); [discriminate|].
  destruct (body_json r); discriminate.
Qed.

Lemma jenkins_query_trailing_slash_witness :
  jenkins_query (example_world 200 None (Raised TypeError) (Raised TypeError))
    (VStr (lit "http://ci/job/sit/lastBuild")) = ([], Raised AssertionError) /\
  trace (jenkins_query (example_world 200 None (Raised TypeError) (Raised TypeError))
           (VStr (lit "http://ci/job/sit/lastBuild/"))) =
    [Log INFO (lit "Fetching Jenkins data from " ++ lit "http://ci/job/sit/lastBuild/");
     HttpGet (lit "http://ci/job/sit/lastBuild/" ++ lit "api/json") 60].
Proof.
  split.
  - apply (proj1 (jenkins_query_trailing_slash _ (lit "http://ci/job/sit/lastBuild"))).
    vm_compute. reflexivity.
  - apply (proj2 (jenkins_query_trailing_slash _ (lit "http://ci/job/sit/lastBuild/"))).
    vm_compute. reflexivity.
Defined.

(** ** Logging in to Jira *)

Lemma JIRA_eq w server user passwd :
  JIRA w server user passwd =
    ([JiraConnect server user passwd], jira_connect w server user passwd).
Proof.
  unfold JIRA. rewrite bind_emit.
  destruct (jira_connect w server user passwd); reflexivity.
Qed.

Lemma issue_update_eq w issue fields :
  issue_update w issue fields =
    ([IssueUpdate issue fields],
     match jira_update w issue fields with
     | Some e => Raised e
     | None => Returned tt
     end).
Proof.
  unfold issue_update. rewrite bind_emit.
  destruct (jira_update w issue fields); reflexivity.
Qed.

Lemma search_issues_eq w c jql :
  search_issues w (Some c) jql = ([JiraSearch jql], jira_search w c jql).
Proof.
  unfold search_issues. rewrite bind_emit.
  destruct (jira_search w c jql); reflexivity.
Qed.

Section Login.
Variables (w : World) (self : JiraStatusUpdater) (server user passwd : value).
Hypothesis Hserver : args self !! lit "jira_url" = Some server.
Hypothesis Huser : args self !! lit "jira_user" = Some user.
Hypothesis Hpasswd : args self !! lit "jira_passwd" = Some passwd.

Lemma jira_login_ok c :
  jira_connect w server user passwd = Returned c ->
  jira_login w self =
    ([JiraConnect server user passwd; Log INFO (lit "Successfully logged into jira")],
     Returned (Some c)).
Proof using Hserver Huser Hpasswd.
  intros Hc. unfold jira_login.
  rewrite (getattr_some _ _ _ Hserver), bind_ret_l.
  rewrite (getattr_some _ _ _ Huser), bind_ret_l.
  rewrite (getattr_some _ _ _ Hpasswd), bind_ret_l.
  rewrite JIRA_eq, Hc, bind_returned. reflexivity.
Qed.

(** A [JIRAError] of the constructor is caught and logged, and the function
    falls off its end: it returns [None]. *)
Lemma jira_login_JIRAError text :
  jira_connect w server user passwd = Raised (JIRAError text) ->
  jira_login w self =
    ([JiraConnect server user passwd;
      Log ERROR (lit "Login to JIRA failed because " ++ text)],
     Returned None).
Proof using Hserver Huser Hpasswd.
  intros Hc. unfold jira_login.
  rewrite (getattr_some _ _ _ Hserver), bind_ret_l.
  rewrite (getattr_some _ _ _ Huser), bind_ret_l.
  rewrite (getattr_some _ _ _ Hpasswd), bind_ret_l.
  rewrite JIRA_eq, Hc, bind_raised. reflexivity.
Qed.

(** After it, the search is attempted on [None]: an [AttributeError] leaves
    [update_jira_status]. *)
Lemma update_jira_status_login_JIRAError text release_name n new_value :
  jira_connect w server user passwd = Raised (JIRAError text) ->
  update_jira_status w self release_name n new_value =
    ([Log INFO (lit "Searching for Jira issues...");
      JiraConnect server user passwd;
      Log ERROR (lit "Login to JIRA failed because " ++ text)],
     Raised (AttributeError (lit "search_issues"))).
Proof using Hserver Huser Hpasswd.
  intros Hc. unfold update_jira_status, logging_info.
  rewrite bind_emit, (jira_login_JIRAError _ Hc), bind_returned. reflexivity.
Qed.

Lemma for_each_update_ok fields issues :
  Forall (fun i => jira_update w i fields = None) issues ->
  for_each issues (fun i => issue_update w i fields) =
    (List.map (fun i => IssueUpdate i fields) issues, Returned tt).
Proof.
  induction 1 as [|i issues Hi _ IH]; [reflexivity|].
  cbn [for_each List.map]. rewrite IH, issue_update_eq, Hi, bind_returned.
  reflexivity.
Qed.

(** The whole of a sync in which no call to the tracker fails. *)
Lemma update_jira_status_ok c release_name n new_value issues :
  jira_connect w server user passwd = Returned c ->
  jira_search w c (search_query release_name n) = Returned issues ->
  Forall (fun i => jira_update w i (update_fields n new_value) = None) issues ->
  update_jira_status w self release_name n new_value =
    ([Log INFO (lit "Searching for Jira issues...");
      JiraConnect server user passwd;
      Log INFO (lit "Successfully logged into jira");
      JiraSearch (search_query release_name n)] ++
     match issues with
     | [] => [Log INFO (lit "No issues found in release: " ++ release_name)]
     | _ :: _ =>
         Log INFO (lit "Updating " ++ str_of_nat (length issues) ++
                   lit " Jira issues to Success (automated regression test)")
         :: List.map (fun i => IssueUpdate i (update_fields n new_value)) issues
         ++ [Log INFO (str_of_nat (length issues) ++ lit " Jira issues were updated")]
     end,
     Returned tt).
Proof using Hserver Huser Hpasswd.
  intros Hc Hs Hu. unfold update_jira_status, logging_info.
  rewrite bind_emit, (jira_login_ok _ Hc), bind_returned.
  rewrite search_issues_eq, Hs, bind_returned.
  destruct issues as [|i issues]; [reflexivity|].
  rewrite bind_emit, (for_each_update_ok _ _ Hu), bind_returned.
  reflexivity.
Qed.

End Login.

(** ** The top-level flow *)

Lemma quiet_nil : quiet [].
Proof. split; [intros []|reflexivity]. Qed.

Lemma quiet_app t1 t2 : quiet t1 -> quiet t2 -> quiet (t1 ++ t2).
Proof.
  intros [H1 J1] [H2 J2]. split.
  - rewrite in_app_iff. tauto.
  - rewrite jira_calls_app, J1, J2. reflexivity.
Qed.

Lemma quiet_jenkins_query w url : quiet (trace (jenkins_query w url)).
Proof. split; [apply jenkins_query_not_searching|apply jenkins_query_no_jira]. Qed.

Lemma quiet_unlabelled name :
  quiet [Log INFO (name ++ lit " is an unlabelled release. Nothing to do")].
Proof.
  split; [|reflexivity]. intros [H|[]]. injection H as H.
  apply (f_equal (@rev char)) in H. rewrite rev_app_distr in H.
  vm_compute in H. discriminate H.
Qed.

Lemma quiet_failed name :
  quiet [Log ERROR (lit "Labelled release: " ++ name ++ lit " failed. Nothing to do")].
Proof. split; [|reflexivity]. intros [H|[]]. discriminate H. Qed.

Create HintDb quiet.
#[local] Hint Resolve quiet_nil quiet_app quiet_jenkins_query quiet_unlabelled
  quiet_failed : quiet.

Section Task.
Variables (w : World) (self : JiraStatusUpdater).
Variables (url : value) (t : list event) (d : gmap str value) (name : str).
Hypothesis Hurl : args self !! lit "jenkins_url" = Some url.
Hypothesis Hquery : jenkins_query w url = (t, Returned (VDict d)).
Hypothesis Hname : d !! lit "displayName" = Some (VStr name).

Lemma task1_unlabelled :
  re_match (unicode_Nd w) build_number_pattern name = true ->
  task1_check_jenkins_release w self =
    (t ++ [Log INFO (name ++ lit " is an unlabelled release. Nothing to do")],
     Returned tt).
Proof using Hurl Hquery Hname.
  intros Hm. unfold task1_check_jenkins_release.
  rewrite (getattr_some _ _ _ Hurl), bind_ret_l, Hquery, bind_returned.
  rewrite (getitem_some _ _ _ Hname), bind_ret_l, Hm. reflexivity.
Qed.

Lemma task1_labelled_failed r :
  re_match (unicode_Nd w) build_number_pattern name = false ->
  d !! lit "result" = Some r ->
  eq_str r (lit "SUCCESS") = false ->
  task1_check_jenkins_release w self =
    (t ++ [Log ERROR (lit "Labelled release: " ++ name ++ lit " failed. Nothing to do")],
     Returned tt).
Proof using Hurl Hquery Hname.
  intros Hm Hr Hne. unfold task1_check_jenkins_release.
  rewrite (getattr_some _ _ _ Hurl), bind_ret_l, Hquery, bind_returned.
  rewrite (getitem_some _ _ _ Hname), bind_ret_l, Hm.
  rewrite (getitem_some _ _ _ Hr), bind_ret_l, Hne. reflexivity.
Qed.

Lemma task1_labelled_success r :
  re_match (unicode_Nd w) build_number_pattern name = false ->
  d !! lit "result" = Some r ->
  eq_str r (lit "SUCCESS") = true ->
  task1_check_jenkins_release w self =
    (t ++ trace (update_jira_status w self name 10803
                   (lit "Success (automated regression test)")),
     outcome (update_jira_status w self name 10803
                (lit "Success (automated regression test)"))).
Proof using Hurl Hquery Hname.
  intros Hm Hr Heq. unfold task1_check_jenkins_release.
  rewrite (getattr_some _ _ _ Hurl), bind_ret_l, Hquery, bind_returned.
  rewrite (getitem_some _ _ _ Hname), bind_ret_l, Hm.
  rewrite (getitem_some _ _ _ Hr), bind_ret_l, Heq. reflexivity.
Qed.

End Task.

Lemma eq_str_true v s : eq_str v s = true <-> v = VStr s.
Proof.
  destruct v; cbn; try (split; [discriminate|discriminate]).
  rewrite bool_decide_eq_true. split; congruence.
Qed.

(** Every run is either quiet or a sync on a labelled, successful build. *)
Lemma task1_cases w self :
  quiet (trace (task1_check_jenkins_release w self)) \/
  exists url t d name,
    args self !! lit "jenkins_url" = Some url /\
    jenkins_query w url = (t, Returned (VDict d)) /\
    quiet t /\
    d !! lit "displayName" = Some (VStr name) /\
    re_match (unicode_Nd w) build_number_pattern name = false /\
    d !! lit "result" = Some (VStr (lit "SUCCESS")) /\
    task1_check_jenkins_release w self =
      (t ++ trace (update_jira_status w self name 10803
                     (lit "Success (automated regression test)")),
       outcome (update_jira_status w self name 10803
                  (lit "Success (automated regression test)"))).
Proof.
  destruct (args self !! lit "jenkins_url") as [url|] eqn:Hurl; cycle 1.
  { left. unfold task1_check_jenkins_release, getattr. rewrite Hurl.
    rewrite bind_raise_l. apply quiet_nil. }
  pose proof (quiet_jenkins_query w url) as Hquiet.
  destruct (jenkins_query w url) as [t [data|e]] eqn:Hquery; cycle 1.
  { left. unfold task1_check_jenkins_release.
    rewrite (getattr_some _ _ _ Hurl), bind_ret_l, Hquery, bind_raised.
    exact Hquiet. }
  rewrite trace_pair in Hquiet.
  assert (Hstop : forall e,
    getitem data (lit "displayName") = raise e ->
    quiet (trace (task1_check_jenkins_release w self))).
  { intros e He. unfold task1_check_jenkins_release.
    rewrite (getattr_some _ _ _ Hurl), bind_ret_l, Hquery, bind_returned.
    rewrite He, bind_raise_l, trace_pair. auto with quiet. }
  destruct data as [| | | | | |d]; try (left; apply (Hstop TypeError); reflexivity).
  destruct (d !! lit "displayName") as [v|] eqn:Hname; cycle 1.
  { left. apply (Hstop (KeyError (lit "displayName"))).
    unfold getitem. rewrite Hname. reflexivity. }
  clear Hstop.
  assert (Hbad : (forall s, v <> VStr s) ->
    quiet (trace (task1_check_jenkins_release w self))).
  { intros Hv. unfold task1_check_jenkins_release.
    rewrite (getattr_some _ _ _ Hurl), bind_ret_l, Hquery, bind_returned.
    rewrite (getitem_some _ _ _ Hname), bind_ret_l, trace_pair.
    destruct v; try (apply quiet_app; [exact Hquiet|apply quiet_nil]).
    exfalso. eapply Hv. reflexivity. }
  destruct v as [| | | |name| |]; try (left; apply Hbad; discriminate).
  clear Hbad.
  destruct (re_match (unicode_Nd w) build_number_pattern name) eqn:Hm.
  { left. rewrite (task1_unlabelled _ _ _ _ _ _ Hurl Hquery Hname Hm), trace_pair.
    auto with quiet. }
  destruct (d !! lit "result") as [r|] eqn:Hr; cycle 1.
  { left. unfold task1_check_jenkins_release.
    rewrite (getattr_some _ _ _ Hurl), bind_ret_l, Hquery, bind_returned.
    rewrite (getitem_some _ _ _ Hname), bind_ret_l, Hm.
    unfold getitem at 1. rewrite Hr, bind_raise_l, trace_pair. auto with quiet. }
  destruct (eq_str r (lit "SUCCESS")) eqn:Heq.
  - right. exists url, t, d, name.
    pose proof (task1_labelled_success _ _ _ _ _ _ Hurl Hquery Hname _ Hm Hr Heq).
    apply eq_str_true in Heq. subst r. auto 10.
  - left. rewrite (task1_labelled_failed _ _ _ _ _ _ Hurl Hquery Hname _ Hm Hr Heq).
    rewrite trace_pair. auto with quiet.
Qed.

(** ** Unlabelled builds *)

(** C3. A build whose display name is a hash sign followed by digits is
    unlabelled: the run logs that there is nothing to do and ends, and no
    call of any kind reaches the issue tracker. *)
Theorem unlabelled_build_is_skipped
    (w : World) (self : JiraStatusUpdater)
    (url : value) (t : list event) (d : gmap str value) (name : str) :
  args self !! lit "jenkins_url" = Some url ->
  jenkins_query w url = (t, Returned (VDict d)) ->
  d !! lit "displayName" = Some (VStr name) ->
  hash_then_digits (unicode_Nd w) name = true ->
  re_match (unicode_Nd w) build_number_pattern name = true /\
  task1_check_jenkins_release w self =
    (t ++ [Log INFO (name ++ lit " is an unlabelled release. Nothing to do")],
     Returned tt) /\
  jira_calls (trace (task1_check_jenkins_release w self)) = [].
Proof.
  intros Hurl Hquery Hname Hspec.
  pose proof (hash_then_digits_match _ _ Hspec) as Hm.
  pose proof (task1_unlabelled _ _ _ _ _ _ Hurl Hquery Hname Hm) as Hrun.
  split; [exact Hm|]. split; [exact Hrun|].
  rewrite Hrun, trace_pair, jira_calls_app.
  pose proof (jenkins_query_no_jira w url) as Hj.
  rewrite Hquery, trace_pair in Hj. rewrite Hj. reflexivity.
Qed.

Lemma unlabelled_build_is_skipped_witness :
  jira_calls (trace (task1_check_jenkins_release
    (example_world 200 (Some (example_build (lit "#123") (VStr (lit "SUCCESS"))))
       (Returned {| session := 1 |}) (Returned example_issues))
    example_self)) = [].
Proof.
  refine (proj2 (proj2 (unlabelled_build_is_skipped
    (example_world 200 (Some (example_build (lit "#123") (VStr (lit "SUCCESS"))))
       (Returned {| session := 1 |}) (Returned example_issues))
    example_self
    (VStr (lit "http://ci/job/sit/lastBuild/"))
    [Log INFO (lit "Fetching Jenkins data from http://ci/job/sit/lastBuild/");
     HttpGet (lit "http://ci/job/sit/lastBuild/api/json") 60]
    {[ lit "displayName" := VStr (lit "#123"); lit "result" := VStr (lit "SUCCESS") ]}
    (lit "#123") _ _ _ _))); vm_compute; reflexivity.
Defined.

(** C9. The pattern takes zero or more digits after the hash sign, so a
    display name that is the hash sign alone is unlabelled too: the run
    logs that there is nothing to do and the tracker is not called. *)
Theorem bare_hash_is_unlabelled
    (w : World) (self : JiraStatusUpdater)
    (url : value) (t : list event) (d : gmap str value) :
  args self !! lit "jenkins_url" = Some url ->
  jenkins_query w url = (t, Returned (VDict d)) ->
  d !! lit "displayName" = Some (VStr (lit "#")) ->
  re_match (unicode_Nd w) build_number_pattern (lit "#") = true /\
  task1_check_jenkins_release w self =
    (t ++ [Log INFO (lit "#" ++ lit " is an unlabelled release. Nothing to do")],
     Returned tt) /\
  jira_calls (trace (task1_check_jenkins_release w self)) = [].
Proof.
  intros Hurl Hquery Hname.
  assert (Hm : re_match (unicode_Nd w) build_number_pattern (lit "#") = true)
    by reflexivity.
  pose proof (task1_unlabelled _ _ _ _ _ _ Hurl Hquery Hname Hm) as Hrun.
  split; [exact Hm|]. split; [exact Hrun|].
  rewrite Hrun, trace_pair, jira_calls_app.
  pose proof (jenkins_query_no_jira w url) as Hj.
  rewrite Hquery, trace_pair in Hj. rewrite Hj. reflexivity.
Qed.

Lemma bare_hash_is_unlabelled_witness :
  task1_check_jenkins_release
    (example_world 200 (Some (example_build (lit "#") (VStr (lit "SUCCESS"))))
       (Returned {| session := 1 |}) (Returned example_issues))
    example_self =
  ([Log INFO (lit "Fetching Jenkins data from http://ci/job/sit/lastBuild/");
    HttpGet (lit "http://ci/job/sit/lastBuild/api/json") 60] ++
   [Log INFO (lit "#" ++ lit " is an unlabelled release. Nothing to do")],
   Returned tt).
Proof.
  refine (proj1 (proj2 (bare_hash_is_unlabelled
    (example_world 200 (Some (example_build (lit "#") (VStr (lit "SUCCESS"))))
       (Returned {| session := 1 |}) (Returned example_issues))
    example_self
    (VStr (lit "http://ci/job/sit/lastBuild/"))
    [Log INFO (lit "Fetching Jenkins data from http://ci/job/sit/lastBuild/");
     HttpGet (lit "http://ci/job/sit/lastBuild/api/json") 60]
    {[ lit "displayName" := VStr (lit "#"); lit "result" := VStr (lit "SUCCESS") ]}
    _ _ _))); vm_compute; reflexivity.
Defined.

(** ** Labelled builds that did not succeed *)

(** C4. For a labelled build (its display name does not match the pattern)
    whose result is not SUCCESS, an error is logged and the tracker is not
    called; and the sync starts (its opening line is logged, or any call
    reaches the tracker) only for a labelled build whose result is
    SUCCESS. *)
Theorem sync_only_for_labelled_success (w : World) (self : JiraStatusUpdater) :
  (forall url t d name r,
     args self !! lit "jenkins_url" = Some url ->
     jenkins_query w url = (t, Returned (VDict d)) ->
     d !! lit "displayName" = Some (VStr name) ->
     re_match (unicode_Nd w) build_number_pattern name = false ->
     d !! lit "result" = Some r ->
     r <> VStr (lit "SUCCESS") ->
     task1_check_jenkins_release w self =
       (t ++ [Log ERROR (lit "Labelled release: " ++ name ++
                         lit " failed. Nothing to do")],
        Returned tt) /\
     jira_calls (trace (task1_check_jenkins_release w self)) = []) /\
  (In (Log INFO (lit "Searching for Jira issues..."))
      (trace (task1_check_jenkins_release w self)) \/
   jira_calls (trace (task1_check_jenkins_release w self)) <> [] ->
   exists url t d name,
     args self !! lit "jenkins_url" = Some url /\
     jenkins_query w url = (t, Returned (VDict d)) /\
     d !! lit "displayName" = Some (VStr name) /\
     re_match (unicode_Nd w) build_number_pattern name = false /\
     d !! lit "result" = Some (VStr (lit "SUCCESS"))).
Proof.
  split.
  - intros url t d name r Hurl Hquery Hname Hm Hr Hne.
    assert (Heq : eq_str r (lit "SUCCESS") = false).
    { destruct (eq_str r (lit "SUCCESS")) eqn:E; [|reflexivity].
      apply eq_str_true in E. contradiction. }
    pose proof (task1_labelled_failed _ _ _ _ _ _ Hurl Hquery Hname _ Hm Hr Heq) as Hrun.
    split; [exact Hrun|].
    rewrite Hrun, trace_pair, jira_calls_app.
    pose proof (jenkins_query_no_jira w url) as Hj.
    rewrite Hquery, trace_pair in Hj. rewrite Hj. reflexivity.
  - intros Hsync.
    destruct (task1_cases w self)
      as [[Hlog Hcalls]|(url & t & d & name & Hurl & Hquery & _ & Hname & Hm & Hr & _)].
    + exfalso. destruct Hsync as [H|H]; [exact (Hlog H)|exact (H Hcalls)].
    + exists url, t, d, name. auto.
Qed.

Lemma sync_only_for_labelled_success_witness :
  jira_calls (trace (task1_check_jenkins_release
    (example_world 200 (Some (example_build (lit "Release-2.3") (VStr (lit "FAILURE"))))
       (Returned {| session := 1 |}) (Returned example_issues))
    example_self)) = [] /\
  exists url t d name,
    args example_self !! lit "jenkins_url" = Some url /\
    jenkins_query
      (example_world 200 (Some (example_build (lit "Release-2.3") (VStr (lit "SUCCESS"))))
         (Returned {| session := 1 |}) (Returned example_issues)) url =
      (t, Returned (VDict d)) /\
    d !! lit "displayName" = Some (VStr name) /\
    re_match (fun c => (1632 <=? c) && (c <=? 1641)) build_number_pattern name = false /\
    d !! lit "result" = Some (VStr (lit "SUCCESS")).
Proof.
  split.
  - refine (proj2 (proj1 (sync_only_for_labelled_success
      (example_world 200 (Some (example_build (lit "Release-2.3") (VStr (lit "FAILURE"))))
         (Returned {| session := 1 |}) (Returned example_issues))
      example_self)
      (VStr (lit "http://ci/job/sit/lastBuild/"))
      [Log INFO (lit "Fetching Jenkins data from http://ci/job/sit/lastBuild/");
       HttpGet (lit "http://ci/job/sit/lastBuild/api/json") 60]
      {[ lit "displayName" := VStr (lit "Release-2.3");
         lit "result" := VStr (lit "FAILURE") ]}
      (lit "Release-2.3") (VStr (lit "FAILURE")) _ _ _ _ _ _));
      try (vm_compute; reflexivity).
    vm_compute. discriminate.
  - apply (proj2 (sync_only_for_labelled_success
      (example_world 200 (Some (example_build (lit "Release-2.3") (VStr (lit "SUCCESS"))))
         (Returned {| session := 1 |}) (Returned example_issues))
      example_self)).
    right. vm_compute. discriminate.
Defined.

(** ** The sync *)

(** C6. When the search returns no issue, the sync logs that no issues were
    found in the release, issues no update, and returns normally. *)
Theorem no_issues_found_is_normal
    (w : World) (self : JiraStatusUpdater) (server user passwd : value)
    (c : JiraClient) (release_name : str) (customfield_number : N) (new_value : str) :
  args self !! lit "jira_url" = Some server ->
  args self !! lit "jira_user" = Some user ->
  args self !! lit "jira_passwd" = Some passwd ->
  jira_connect w server user passwd = Returned c ->
  jira_search w c (search_query release_name customfield_number) = Returned [] ->
  update_jira_status w self release_name customfield_number new_value =
    ([Log INFO (lit "Searching for Jira issues...");
      JiraConnect server user passwd;
      Log INFO (lit "Successfully logged into jira");
      JiraSearch (search_query release_name customfield_number);
      Log INFO (lit "No issues found in release: " ++ release_name)],
     Returned tt) /\
  List.filter is_issue_update
    (trace (update_jira_status w self release_name customfield_number new_value)) = [].
Proof.
  intros Hserver Huser Hpasswd Hc Hs.
  pose proof (update_jira_status_ok w self server user passwd Hserver Huser Hpasswd
                c release_name customfield_number new_value [] Hc Hs (List.Forall_nil _)) as Hrun.
  split; [exact Hrun|]. rewrite Hrun. reflexivity.
Qed.

Lemma no_issues_found_is_normal_witness :
  update_jira_status
    (example_world 200 None (Returned {| session := 1 |}) (Returned []))
    example_self (lit "Release-2.3") 10803 (lit "Success (automated regression test)") =
  ([Log INFO (lit "Searching for Jira issues...");
    JiraConnect (VStr (lit "http://jira")) (VStr (lit "robot")) (VStr (lit "secret"));
    Log INFO (lit "Successfully logged into jira");
    JiraSearch (search_query (lit "Release-2.3") 10803);
    Log INFO (lit "No issues found in release: " ++ lit "Release-2.3")],
   Returned tt).
Proof.
  refine (proj1 (no_issues_found_is_normal
    (example_world 200 None (Returned {| session := 1 |}) (Returned []))
    example_self
    (VStr (lit "http://jira")) (VStr (lit "robot")) (VStr (lit "secret"))
    {| session := 1 |} (lit "Release-2.3") 10803
    (lit "Success (automated regression test)") _ _ _ _ _)); vm_compute; reflexivity.
Defined.

(** C2. A failed login, run: the [JIRAError] of the constructor is caught and
    logged and no issue is updated, but the run does not go on to its end.
    [jira_login] has returned [None], the search is attempted on it, and
    the [AttributeError] of that attempt leaves
    [task1_check_jenkins_release]. *)
Theorem login_failure_escapes_as_AttributeError :
  task1_check_jenkins_release
    (example_world 200 (Some (example_build (lit "Release-2.3") (VStr (lit "SUCCESS"))))
       (Raised (JIRAError (lit "HTTP 401"))) (Returned example_issues))
    example_self =
  ([Log INFO (lit "Fetching Jenkins data from http://ci/job/sit/lastBuild/");
    HttpGet (lit "http://ci/job/sit/lastBuild/api/json") 60;
    Log INFO (lit "Searching for Jira issues...");
    JiraConnect (VStr (lit "http://jira")) (VStr (lit "robot")) (VStr (lit "secret"));
    Log ERROR (lit "Login to JIRA failed because HTTP 401")],
   Raised (AttributeError (lit "search_issues"))).
Proof. vm_compute. reflexivity. Qed.

(** The texts the top-level flow makes of its constants. *)
Lemma search_query_10803 name :
  search_query name 10803 =
  lit "fixVersion=" ++ name ++ lit " AND cf[10803]=" ++
  dquote ++ lit "Pending automated test" ++ dquote.
Proof. unfold search_query. do 2 f_equal. Qed.

Lemma update_fields_10803 new_value :
  update_fields 10803 new_value =
  VDict {[ lit "customfield_10803" := VDict {[ lit "value" := VStr new_value ]} ]}.
Proof. reflexivity. Qed.

Lemma jira_calls_updates fields issues :
  jira_calls (List.map (fun i => IssueUpdate i fields) issues) =
  List.map (fun i => IssueUpdate i fields) issues.
Proof.
  induction issues as [|i issues IH]; [reflexivity|].
  cbn [List.map]. unfold jira_calls in *. cbn [List.filter is_jira_call].
  rewrite IH. reflexivity.
Qed.

(** C1. For a labelled build whose result is SUCCESS, [update_jira_status]
    is run with the display name as release name.  The search it issues
    filters on [fixVersion] equal to that name and on custom field 10803
    equal to "Pending automated test"; every issue the search returns is
    updated, in order, with custom field 10803 set to the target value
    "Success (automated regression test)"; and the count in the log lines
    is the number of the issues returned.  (The calls to the tracker are
    taken to succeed.) *)
Theorem labelled_success_updates_every_issue
    (w : World) (self : JiraStatusUpdater)
    (url : value) (t : list event) (d : gmap str value) (name : str)
    (server user passwd : value) (c : JiraClient) (issues : list Issue) :
  let jql := lit "fixVersion=" ++ name ++ lit " AND cf[10803]=" ++
             dquote ++ lit "Pending automated test" ++ dquote in
  let fields := VDict {[ lit "customfield_10803" :=
                  VDict {[ lit "value" :=
                    VStr (lit "Success (automated regression test)") ]} ]} in
  args self !! lit "jenkins_url" = Some url ->
  jenkins_query w url = (t, Returned (VDict d)) ->
  d !! lit "displayName" = Some (VStr name) ->
  re_match (unicode_Nd w) build_number_pattern name = false ->
  d !! lit "result" = Some (VStr (lit "SUCCESS")) ->
  args self !! lit "jira_url" = Some server ->
  args self !! lit "jira_user" = Some user ->
  args self !! lit "jira_passwd" = Some passwd ->
  jira_connect w server user passwd = Returned c ->
  jira_search w c jql = Returned issues ->
  Forall (fun i => jira_update w i fields = None) issues ->
  task1_check_jenkins_release w self =
    (t ++ trace (update_jira_status w self name 10803
                   (lit "Success (automated regression test)")),
     outcome (update_jira_status w self name 10803
                (lit "Success (automated regression test)"))) /\
  task1_check_jenkins_release w self =
    (t ++
     [Log INFO (lit "Searching for Jira issues...");
      JiraConnect server user passwd;
      Log INFO (lit "Successfully logged into jira");
      JiraSearch jql] ++
     match issues with
     | [] => [Log INFO (lit "No issues found in release: " ++ name)]
     | _ :: _ =>
         Log INFO (lit "Updating " ++ str_of_nat (length issues) ++
                   lit " Jira issues to Success (automated regression test)")
         :: List.map (fun i => IssueUpdate i fields) issues
         ++ [Log INFO (str_of_nat (length issues) ++ lit " Jira issues were updated")]
     end,
     Returned tt) /\
  jira_calls (trace (task1_check_jenkins_release w self)) =
    JiraConnect server user passwd :: JiraSearch jql ::
    List.map (fun i => IssueUpdate i fields) issues.
Proof.
  intros jql fields Hurl Hquery Hname Hm Hr Hserver Huser Hpasswd Hc Hs Hu.
  subst jql fields. rewrite <- search_query_10803 in *.
  rewrite <- update_fields_10803 in *.
  assert (Heq : eq_str (VStr (lit "SUCCESS")) (lit "SUCCESS") = true)
    by (apply eq_str_true; reflexivity).
  pose proof (task1_labelled_success _ _ _ _ _ _ Hurl Hquery Hname _ Hm Hr Heq) as Hrun.
  pose proof (update_jira_status_ok w self server user passwd Hserver Huser Hpasswd
                c name 10803 _ issues Hc Hs Hu) as Hsync.
  split; [exact Hrun|]. rewrite Hrun, Hsync, !trace_pair, !outcome_pair.
  split; [reflexivity|].
  pose proof (jenkins_query_no_jira w url) as Hj.
  rewrite Hquery, trace_pair in Hj.
  rewrite jira_calls_app, Hj.
  destruct issues as [|i issues]; [reflexivity|].
  cbn [app]. unfold jira_calls at 1. cbn [List.filter is_jira_call].
  do 2 f_equal.
  change (jira_calls (List.map (fun i0 => IssueUpdate i0 (update_fields 10803
            (lit "Success (automated regression test)"))) (i :: issues) ++
          [Log INFO (str_of_nat (length (i :: issues)) ++
                     lit " Jira issues were updated")]) =
          List.map (fun i0 => IssueUpdate i0 (update_fields 10803
            (lit "Success (automated regression test)"))) (i :: issues)).
  rewrite jira_calls_app, jira_calls_updates. apply app_nil_r.
Qed.

Lemma labelled_success_updates_every_issue_witness :
  jira_calls (trace (task1_check_jenkins_release
    (example_world 200 (Some (example_build (lit "Release-2.3") (VStr (lit "SUCCESS"))))
       (Returned {| session := 1 |}) (Returned example_issues))
    example_self)) =
  JiraConnect (VStr (lit "http://jira")) (VStr (lit "robot")) (VStr (lit "secret")) ::
  JiraSearch (lit "fixVersion=" ++ lit "Release-2.3" ++ lit " AND cf[10803]=" ++
              dquote ++ lit "Pending automated test" ++ dquote) ::
  List.map (fun i => IssueUpdate i
              (VDict {[ lit "customfield_10803" :=
                 VDict {[ lit "value" :=
                   VStr (lit "Success (automated regression test)") ]} ]}))
    example_issues.
Proof.
  refine (proj2 (proj2 (labelled_success_updates_every_issue
    (example_world 200 (Some (example_build (lit "Release-2.3") (VStr (lit "SUCCESS"))))
       (Returned {| session := 1 |}) (Returned example_issues))
    example_self
    (VStr (lit "http://ci/job/sit/lastBuild/"))
    [Log INFO (lit "Fetching Jenkins data from http://ci/job/sit/lastBuild/");
     HttpGet (lit "http://ci/job/sit/lastBuild/api/json") 60]
    {[ lit "displayName" := VStr (lit "Release-2.3");
       lit "result" := VStr (lit "SUCCESS") ]}
    (lit "Release-2.3")
    (VStr (lit "http://jira")) (VStr (lit "robot")) (VStr (lit "secret"))
    {| session := 1 |} example_issues _ _ _ _ _ _ _ _ _ _ _)));
    try (vm_compute; reflexivity).
  repeat constructor.
Defined.

(** ** The constants of the sync *)

Lemma jira_login_events w self release_name n new_value :
  Forall (sync_event release_name n new_value) (trace (jira_login w self)).
Proof.
  unfold jira_login, getattr.
  destruct (args self !! lit "jira_url") as [server|]; [|constructor].
  rewrite bind_ret_l.
  destruct (args self !! lit "jira_user") as [user|]; [|constructor].
  rewrite bind_ret_l.
  destruct (args self !! lit "jira_passwd") as [passwd|]; [|constructor].
  rewrite bind_ret_l, JIRA_eq.
  destruct (jira_connect w server user passwd) as [c|e].
  - rewrite bind_returned. repeat constructor.
  - rewrite bind_raised. destruct e; repeat constructor.
Qed.

Lemma for_each_update_events w release_name n new_value issues :
  Forall (sync_event release_name n new_value)
    (trace (for_each issues
              (fun i => issue_update w i (update_fields n new_value)))).
Proof.
  induction issues as [|i issues IH]; [constructor|].
  cbn [for_each]. rewrite issue_update_eq.
  destruct (jira_update w i (update_fields n new_value)) as [e|].
  - rewrite bind_raised. repeat constructor.
  - rewrite bind_returned, trace_pair. constructor; [reflexivity|exact IH].
Qed.

(** Whatever the tracker answers, a sync searches with the query of its
    release and field, and updates with its field and value. *)
Lemma update_jira_status_events w self release_name n new_value :
  Forall (sync_event release_name n new_value)
    (trace (update_jira_status w self release_name n new_value)).
Proof.
  unfold update_jira_status, logging_info. rewrite bind_emit, trace_pair.
  constructor; [exact I|].
  pose proof (jira_login_events w self release_name n new_value) as Hlogin.
  destruct (jira_login w self) as [tl [[c|]|e]]; rewrite trace_pair in Hlogin.
  - rewrite bind_returned, trace_pair. apply Forall_app. split; [exact Hlogin|].
    rewrite search_issues_eq.
    destruct (jira_search w c (search_query release_name n)) as [issues|e].
    + rewrite bind_returned, trace_pair. constructor; [reflexivity|].
      destruct issues as [|i issues]; [repeat constructor|].
      rewrite bind_emit, trace_pair. constructor; [exact I|].
      pose proof (for_each_update_events w release_name n new_value (i :: issues)) as Hfor.
      destruct (for_each (i :: issues) _) as [tu [[]|e]]; rewrite trace_pair in Hfor.
      * rewrite bind_returned, trace_pair. apply Forall_app. split; [exact Hfor|].
        repeat constructor.
      * rewrite bind_raised, trace_pair. exact Hfor.
    + rewrite bind_raised, trace_pair. repeat constructor.
  - rewrite bind_returned, trace_pair. apply Forall_app. split; [exact Hlogin|].
    constructor.
  - rewrite bind_raised, trace_pair. exact Hlogin.
Qed.

Lemma quiet_sync_event release_name n new_value t :
  jira_calls t = [] -> Forall (sync_event release_name n new_value) t.
Proof.
  induction t as [|e t IH]; [constructor|].
  unfold jira_calls. cbn [List.filter].
  destruct e; cbn [is_jira_call]; try discriminate; intros H;
    (constructor; [exact I|exact (IH H)]).
Qed.

(** C10. The field number 10803 and the target value
    "Success (automated regression test)" are constants of the top-level
    flow.  In every world and for every namespace of arguments, a search of
    the run has the text [fixVersion=<name> AND cf[10803]="Pending automated
    test"] for some name, an update of the run sets [customfield_10803] to
    the target value, and a run in which the sync starts is the fetch
    followed by [update_jira_status] at 10803 and the target value. *)
Theorem sync_constants_are_fixed (w : World) (self : JiraStatusUpdater) :
  Forall (fun e =>
            match e with
            | JiraSearch jql =>
                exists name,
                  jql = lit "fixVersion=" ++ name ++ lit " AND cf[10803]=" ++
                        dquote ++ lit "Pending automated test" ++ dquote
            | IssueUpdate _ fields =>
                fields =
                VDict {[ lit "customfield_10803" :=
                  VDict {[ lit "value" :=
                    VStr (lit "Success (automated regression test)") ]} ]}
            | _ => True
            end)
         (trace (task1_check_jenkins_release w self)) /\
  (quiet (trace (task1_check_jenkins_release w self)) \/
   exists t name,
     quiet t /\
     task1_check_jenkins_release w self =
       (t ++ trace (update_jira_status w self name 10803
                      (lit "Success (automated regression test)")),
        outcome (update_jira_status w self name 10803
                   (lit "Success (automated regression test)")))).
Proof.
  assert (Hweak : forall name t,
    Forall (sync_event name 10803 (lit "Success (automated regression test)")) t ->
    Forall (fun e =>
            match e with
            | JiraSearch jql =>
                exists name,
                  jql = lit "fixVersion=" ++ name ++ lit " AND cf[10803]=" ++
                        dquote ++ lit "Pending automated test" ++ dquote
            | IssueUpdate _ fields =>
                fields =
                VDict {[ lit "customfield_10803" :=
                  VDict {[ lit "value" :=
                    VStr (lit "Success (automated regression test)") ]} ]}
            | _ => True
            end) t).
  { intros name t Ht. eapply List.Forall_impl; [|exact Ht].
    clear t Ht. intros [] H; try exact I.
    - exists name. rewrite <- search_query_10803. exact H.
    - exact H. }
  destruct (task1_cases w self)
    as [Hq|(url & t & d & name & _ & _ & Hquiet & _ & _ & _ & Hrun)].
  - split; [|left; exact Hq].
    apply (Hweak []). apply quiet_sync_event. exact (proj2 Hq).
  - split; [|right; exists t, name; split; assumption].
    apply (Hweak name). rewrite Hrun, trace_pair. apply Forall_app. split.
    + apply quiet_sync_event. exact (proj2 Hquiet).
    + apply update_jira_status_events.
Qed.

(** ** Errors of the fetch *)

(** An exception of the query is the outcome of the run, which by then has
    done no more than the query did. *)
Lemma task1_query_raises w self url e :
  args self !! lit "jenkins_url" = Some url ->
  outcome (jenkins_query w url) = Raised e ->
  task1_check_jenkins_release w self = (trace (jenkins_query w url), Raised e).
Proof.
  intros Hurl He. unfold task1_check_jenkins_release.
  rewrite (getattr_some _ _ _ Hurl), bind_ret_l.
  rewrite (M_eta (jenkins_query w url)), He, bind_raised. reflexivity.
Qed.

(** C5, as the code has it.  An error of the fetch is the uncaught outcome
    of the run and comes before any call to the tracker: the failed
    assertion on a url without its trailing slash, whatever [requests.get]
    raises (a timeout, an unreachable or malformed endpoint), and the
    [HTTPError] of a response with a 4xx or 5xx status. *)
Theorem fetch_error_is_fatal
    (w : World) (self : JiraStatusUpdater) (u : str) (e : exn) :
  args self !! lit "jenkins_url" = Some (VStr u) ->
  (endswith u 47 = false /\ e = AssertionError) \/
  (endswith u 47 = true /\
   exists re, http_get w (u ++ lit "api/json") 60 = inl re /\
              e = RequestException re) \/
  (endswith u 47 = true /\
   exists r, http_get w (u ++ lit "api/json") 60 = inr r /\
             400 <= status_code r < 600 /\
             e = HTTPError (status_code r)) ->
  task1_check_jenkins_release w self = (trace (jenkins_query w (VStr u)), Raised e) /\
  jira_calls (trace (task1_check_jenkins_release w self)) = [].
Proof.
  intros Hurl Hcase.
  assert (He : outcome (jenkins_query w (VStr u)) = Raised e).
  { destruct Hcase as [[Hs ->]|[[Hs (re & Hget & ->)]|[Hs (r & Hget & Hst & ->)]]].
    - rewrite (jenkins_query_no_slash _ _ Hs). reflexivity.
    - rewrite (jenkins_query_slash _ _ Hs), Hget. reflexivity.
    - rewrite (jenkins_query_slash _ _ Hs), Hget, outcome_pair.
      assert ((400 <=? status_code r) && (status_code r <? 600) = true) as ->; [|reflexivity].
      apply andb_true_iff. split; [apply N.leb_le|apply N.ltb_lt]; lia. }
  pose proof (task1_query_raises _ _ _ _ Hurl He) as Hrun.
  split; [exact Hrun|]. rewrite Hrun, trace_pair. apply jenkins_query_no_jira.
Qed.

Lemma fetch_error_is_fatal_witness :
  task1_check_jenkins_release
    (example_world 503 None (Returned {| session := 1 |}) (Returned example_issues))
    example_self =
  (trace (jenkins_query
            (example_world 503 None (Returned {| session := 1 |}) (Returned example_issues))
            (VStr (lit "http://ci/job/sit/lastBuild/"))),
   Raised (HTTPError 503)).
Proof.
  refine (proj1 (fetch_error_is_fatal
    (example_world 503 None (Returned {| session := 1 |}) (Returned example_issues))
    example_self (lit "http://ci/job/sit/lastBuild/") (HTTPError 503) _ _)).
  - vm_compute. reflexivity.
  - right. right. split; [vm_compute; reflexivity|].
    exists {| status_code := 503; body_json := None |}.
    split; [reflexivity|]. split; [cbn; lia|reflexivity].
Defined.

(** C5, as stated, fails: a response whose status is outside 2xx need not
    raise.  [raise_for_status] lets a 300 pass, and with a body that decodes
    the run goes on and returns. *)
Lemma non_2xx_response_need_not_raise :
  ~ (forall (w : World) (self : JiraStatusUpdater) (u : str) (r : Response),
       args self !! lit "jenkins_url" = Some (VStr u) ->
       http_get w (u ++ lit "api/json") 60 = inr r ->
       ~ (200 <= status_code r < 300) ->
       exists e, outcome (task1_check_jenkins_release w self) = Raised e).
Proof.
  intros H.
  destruct (H (example_world 300 (Some (example_build (lit "#7") VNone))
                 (Returned {| session := 1 |}) (Returned example_issues))
              example_self (lit "http://ci/job/sit/lastBuild/")
              {| status_code := 300;
                 body_json := Some (example_build (lit "#7") VNone) |})
    as [e He].
  - vm_compute. reflexivity.
  - reflexivity.
  - cbn. lia.
  - vm_compute in He. discriminate He.
Qed.

(** ** The command line *)

Lemma add_argument_some p flag v p' :
  add_argument p flag v = Some p' ->
  find_option p flag = None /\ p' = p ++ [store_action flag (dest_of flag) v].
Proof.
  unfold add_argument. destruct (find_option p flag); [discriminate|].
  intros [= <-]. split; reflexivity.
Qed.

Lemma find_option_app p q o :
  find_option (p ++ q) o =
  match find_option p o with
  | Some a => Some a
  | None => find_option q o
  end.
Proof.
  unfold find_option, option_table. rewrite flat_map_app.
  induction (flat_map _ p) as [|[o' a] l IH]; [reflexivity|].
  cbn [app List.find fst]. destruct (bool_decide (o' = o)); [reflexivity|exact IH].
Qed.

Lemma find_option_app_none p q o :
  find_option (p ++ q) o = None -> find_option p o = None.
Proof. rewrite find_option_app. destruct (find_option p o); [discriminate|reflexivity]. Qed.

(** The parser [__init__] leaves: that of the base class and the four
    options, each with the value of its variable as default. *)
Lemma init_parser environ batch p :
  JiraStatusUpdater__init__ environ batch = Some p ->
  p = batch ++
      [store_action (lit "--jenkins_url") (lit "jenkins_url")
         (getenv environ (lit "JENKINS_URL"));
       store_action (lit "--jira_url") (lit "jira_url")
         (getenv environ (lit "JIRA_URL"));
       store_action (lit "--jira_user") (lit "jira_user")
         (getenv environ (lit "JIRA_USER"));
       store_action (lit "--jira_passwd") (lit "jira_passwd")
         (getenv environ (lit "JIRA_PASSWD"))] /\
  find_option batch (lit "--jenkins_url") = None /\
  find_option batch (lit "--jira_url") = None /\
  find_option batch (lit "--jira_user") = None /\
  find_option batch (lit "--jira_passwd") = None.
Proof.
  unfold JiraStatusUpdater__init__. intros H.
  destruct (add_argument batch _ _) as [p1|] eqn:H1; [|discriminate H].
  cbn [mbind option_bind] in H.
  destruct (add_argument p1 _ _) as [p2|] eqn:H2; [|discriminate H].
  cbn [mbind option_bind] in H.
  destruct (add_argument p2 _ _) as [p3|] eqn:H3; [|discriminate H].
  cbn [mbind option_bind] in H.
  apply add_argument_some in H1 as [F1 ->], H2 as [F2 ->], H3 as [F3 ->], H as [F4 ->].
  split; [rewrite <- !app_assoc; reflexivity|].
  do 3 apply find_option_app_none in F4. do 2 apply find_option_app_none in F3.
  apply find_option_app_none in F2. auto.
Qed.

(** Actions stored elsewhere leave the default of a [dest] alone. *)
Lemma defaults_other k q ns :
  Forall (fun a => dest a <> k) q -> foldl set_default ns q !! k = ns !! k.
Proof.
  revert ns. induction q as [|a q IH]; intros ns Hq; [reflexivity|].
  apply Forall_cons in Hq as [Ha Hq]. cbn [foldl]. rewrite (IH _ Hq).
  unfold set_default. destruct (kind a), (ns !! dest a); try reflexivity;
    apply lookup_insert_ne; exact Ha.
Qed.

(** A [Store] action of a fresh [dest] sets its default, and later actions
    do not change it. *)
Lemma defaults_store k flag v q ns :
  ns !! k = None ->
  foldl set_default ns (store_action flag k v :: q) !! k = Some v.
Proof.
  intros Hk. cbn [foldl]. unfold set_default at 2. cbn [kind dest default store_action].
  rewrite Hk. generalize (<[k:=v]> ns), (lookup_insert_eq ns k v).
  induction q as [|a q IH]; intros m Hm; [exact Hm|].
  cbn [foldl]. apply IH. unfold set_default.
  destruct (kind a), (m !! dest a) eqn:E; try exact Hm;
    (destruct (decide (dest a = k)) as [<-|Hne];
      [congruence|rewrite lookup_insert_ne; assumption]).
Qed.

(** Reading a command line that does not give the option of [k] leaves
    what is stored under [k] as it was. *)
Lemma consume_preserves p k n :
  forall argv ns ns',
    (length argv <= n)%nat ->
    consume p argv ns = Some ns' ->
    supplied p k argv = false ->
    ns' !! k = ns !! k.
Proof.
  induction n as [|n IH]; intros [|tok rest] ns ns' Hlen Hrun Hsup;
    cbn [length] in Hlen; try lia.
  - injection Hrun as <-. reflexivity.
  - injection Hrun as <-. reflexivity.
  - cbn [consume] in Hrun. unfold supplied in Hsup. cbn [existsb] in Hsup.
    apply orb_false_iff in Hsup as [Htok Hrest]. unfold selects in Htok.
    destruct (parse_optional p tok) as [|a explicit_arg| |]; try discriminate Hrun.
    apply bool_decide_eq_false in Htok.
    destruct (kind a), explicit_arg as [v|]; try discriminate Hrun.
    + rewrite (IH rest _ _ ltac:(lia) Hrun Hrest). apply lookup_insert_ne. exact Htok.
    + destruct rest as [|v rest']; [discriminate Hrun|].
      destruct (parse_optional p v); try discriminate Hrun.
      cbn [existsb] in Hrest. apply orb_false_iff in Hrest as [_ Hrest'].
      cbn [length] in Hlen.
      rewrite (IH rest' _ _ ltac:(lia) Hrun Hrest'). apply lookup_insert_ne. exact Htok.
    + rewrite (IH rest _ _ ltac:(lia) Hrun Hrest). apply lookup_insert_ne. exact Htok.
Qed.

Lemma set_default_store_fresh ns flag k v :
  ns !! k = None -> set_default ns (store_action flag k v) = <[k:=v]> ns.
Proof. intros H. unfold set_default. cbn [kind dest default store_action]. rewrite H. reflexivity. Qed.

Lemma lit_neq (a b : str) : bool_decide (a = b) = false -> a <> b.
Proof. apply bool_decide_eq_false. Qed.

(** The namespace of defaults that the parser of [__init__] starts from. *)
Lemma init_defaults environ batch p :
  Forall (fun a => ~ In (dest a)
            [lit "jenkins_url"; lit "jira_url"; lit "jira_user"; lit "jira_passwd"])
         batch ->
  JiraStatusUpdater__init__ environ batch = Some p ->
  defaults p !! lit "jenkins_url" = Some (getenv environ (lit "JENKINS_URL")) /\
  defaults p !! lit "jira_url" = Some (getenv environ (lit "JIRA_URL")) /\
  defaults p !! lit "jira_user" = Some (getenv environ (lit "JIRA_USER")) /\
  defaults p !! lit "jira_passwd" = Some (getenv environ (lit "JIRA_PASSWD")).
Proof.
  intros Hbatch Hinit. apply init_parser in Hinit as (-> & _).
  unfold defaults. rewrite foldl_app.
  assert (Hfresh : forall k,
    In k [lit "jenkins_url"; lit "jira_url"; lit "jira_user"; lit "jira_passwd"] ->
    foldl set_default ∅ batch !! k = None).
  { intros k Hk. rewrite defaults_other; [apply lookup_empty|].
    eapply List.Forall_impl; [|exact Hbatch].
    intros a Ha Heq. apply Ha. rewrite Heq. exact Hk. }
  generalize dependent (foldl set_default ∅ batch). intros ns0 Hfresh.
  generalize (getenv environ (lit "JENKINS_URL")) (getenv environ (lit "JIRA_URL"))
             (getenv environ (lit "JIRA_USER")) (getenv environ (lit "JIRA_PASSWD")).
  intros v1 v2 v3 v4.
  assert (H1 : ns0 !! lit "jenkins_url" = None) by (apply Hfresh; cbn; tauto).
  assert (H2 : ns0 !! lit "jira_url" = None) by (apply Hfresh; cbn; tauto).
  assert (H3 : ns0 !! lit "jira_user" = None) by (apply Hfresh; cbn; tauto).
  assert (H4 : ns0 !! lit "jira_passwd" = None) by (apply Hfresh; cbn; tauto).
  clear Hfresh. split; [apply defaults_store; exact H1|].
  cbn [foldl]. rewrite (set_default_store_fresh _ _ _ _ H1).
  assert (H2' : <[lit "jenkins_url":=v1]> ns0 !! lit "jira_url" = None).
  { rewrite lookup_insert_ne; [exact H2|]. apply lit_neq. vm_compute. reflexivity. }
  assert (H3' : <[lit "jenkins_url":=v1]> ns0 !! lit "jira_user" = None).
  { rewrite lookup_insert_ne; [exact H3|]. apply lit_neq. vm_compute. reflexivity. }
  assert (H4' : <[lit "jenkins_url":=v1]> ns0 !! lit "jira_passwd" = None).
  { rewrite lookup_insert_ne; [exact H4|]. apply lit_neq. vm_compute. reflexivity. }
  generalize dependent (<[lit "jenkins_url":=v1]> ns0). clear. intros ns1 H2 H3 H4.
  split; [apply (defaults_store _ _ _ [_; _]); exact H2|].
  rewrite (set_default_store_fresh _ _ _ _ H2).
  assert (H3' : <[lit "jira_url":=v2]> ns1 !! lit "jira_user" = None).
  { rewrite lookup_insert_ne; [exact H3|]. apply lit_neq. vm_compute. reflexivity. }
  assert (H4' : <[lit "jira_url":=v2]> ns1 !! lit "jira_passwd" = None).
  { rewrite lookup_insert_ne; [exact H4|]. apply lit_neq. vm_compute. reflexivity. }
  generalize dependent (<[lit "jira_url":=v2]> ns1). clear. intros ns2 H3 H4.
  split; [apply (defaults_store _ _ _ [_]); exact H3|].
  rewrite (set_default_store_fresh _ _ _ _ H3).
  apply (defaults_store _ _ _ []).
  rewrite lookup_insert_ne; [exact H4|]. apply lit_neq. vm_compute. reflexivity.
Qed.

(** The action [__init__] has registered for each of the four flags. *)
Lemma init_find_option environ batch p :
  JiraStatusUpdater__init__ environ batch = Some p ->
  find_option p (lit "--jenkins_url") =
    Some (store_action (lit "--jenkins_url") (lit "jenkins_url")
            (getenv environ (lit "JENKINS_URL"))) /\
  find_option p (lit "--jira_url") =
    Some (store_action (lit "--jira_url") (lit "jira_url")
            (getenv environ (lit "JIRA_URL"))) /\
  find_option p (lit "--jira_user") =
    Some (store_action (lit "--jira_user") (lit "jira_user")
            (getenv environ (lit "JIRA_USER"))) /\
  find_option p (lit "--jira_passwd") =
    Some (store_action (lit "--jira_passwd") (lit "jira_passwd")
            (getenv environ (lit "JIRA_PASSWD"))).
Proof.
  intros Hinit. apply init_parser in Hinit as (-> & F1 & F2 & F3 & F4).
  rewrite !find_option_app, F1, F2, F3, F4.
  generalize (getenv environ (lit "JENKINS_URL")) (getenv environ (lit "JIRA_URL"))
             (getenv environ (lit "JIRA_USER")) (getenv environ (lit "JIRA_PASSWD")).
  intros v1 v2 v3 v4. repeat split; vm_compute; reflexivity.
Qed.

(** C8. Each of the options [--jenkins_url], [--jira_url], [--jira_user] and
    [--jira_passwd] is registered with the value of its environment
    variable ([JENKINS_URL], [JIRA_URL], [JIRA_USER], [JIRA_PASSWD]) as
    default, and a command line that does not give the option leaves that
    value in the namespace.  (The options of the base class are taken to
    be stored under names of their own.) *)
Theorem options_default_to_environment
    (environ : gmap str str) (batch p : ArgumentParser)
    (argv : list str) (ns : gmap str value) (flag key var : str) :
  Forall (fun a => ~ In (dest a)
            [lit "jenkins_url"; lit "jira_url"; lit "jira_user"; lit "jira_passwd"])
         batch ->
  JiraStatusUpdater__init__ environ batch = Some p ->
  parse_args p argv = Some ns ->
  In (flag, key, var)
     [(lit "--jenkins_url", lit "jenkins_url", lit "JENKINS_URL");
      (lit "--jira_url", lit "jira_url", lit "JIRA_URL");
      (lit "--jira_user", lit "jira_user", lit "JIRA_USER");
      (lit "--jira_passwd", lit "jira_passwd", lit "JIRA_PASSWD")] ->
  find_option p flag = Some (store_action flag key (getenv environ var)) /\
  (supplied p key argv = false -> ns !! key = Some (getenv environ var)).
Proof.
  intros Hbatch Hinit Hparse Hin.
  destruct (init_find_option _ _ _ Hinit) as (O1 & O2 & O3 & O4).
  destruct (init_defaults _ _ _ Hbatch Hinit) as (D1 & D2 & D3 & D4).
  assert (Hkeep : supplied p key argv = false -> ns !! key = defaults p !! key).
  { intros Hsup. unfold parse_args in Hparse.
    exact (consume_preserves p key (length argv) argv _ _ (le_n _) Hparse Hsup). }
  destruct Hin as [H|[H|[H|[H|[]]]]]; injection H as <- <- <-;
    (split; [assumption|]); intros Hsup; rewrite (Hkeep Hsup); assumption.
Qed.

Lemma options_default_to_environment_witness :
  example_namespace !! lit "jenkins_url" =
    Some (getenv example_environ (lit "JENKINS_URL")) /\
  example_namespace !! lit "jira_passwd" =
    Some (getenv example_environ (lit "JIRA_PASSWD")).
Proof.
  split.
  - refine (proj2 (options_default_to_environment
      example_environ example_batch_parser example_parser example_argv
      example_namespace (lit "--jenkins_url") (lit "jenkins_url") (lit "JENKINS_URL")
      _ _ _ _) _); try (vm_compute; reflexivity).
    + repeat constructor; vm_compute; intuition discriminate.
    + left. reflexivity.
  - refine (proj2 (options_default_to_environment
      example_environ example_batch_parser example_parser example_argv
      example_namespace (lit "--jira_passwd") (lit "jira_passwd") (lit "JIRA_PASSWD")
      _ _ _ _) _); try (vm_compute; reflexivity).
    + repeat constructor; vm_compute; intuition discriminate.
    + do 3 right. left. reflexivity.
Defined.

(** * Further properties of the script *)

(** ** Failures of the tracker *)

Lemma for_each_update_stops w fields pre i post e :
  Forall (fun j => jira_update w j fields = None) pre ->
  jira_update w i fields = Some e ->
  for_each (pre ++ i :: post) (fun j => issue_update w j fields) =
    (List.map (fun j => IssueUpdate j fields) (pre ++ [i]), Raised e).
Proof.
  intros Hpre Hi. induction Hpre as [|j pre Hj _ IH].
  - cbn [app for_each List.map]. rewrite issue_update_eq, Hi, bind_raised. reflexivity.
  - cbn [app for_each List.map]. rewrite IH, issue_update_eq, Hj, bind_returned.
    reflexivity.
Qed.


Section Failures.
Variables (w : World) (self : JiraStatusUpdater) (server user passwd : value).
Hypothesis Hserver : args self !! lit "jira_url" = Some server.
Hypothesis Huser : args self !! lit "jira_user" = Some user.
Hypothesis Hpasswd : args self !! lit "jira_passwd" = Some passwd.

Lemma jira_login_other e :
  jira_connect w server user passwd = Raised e ->
  (forall text, e <> JIRAError text) ->
  jira_login w self = ([JiraConnect server user passwd], Raised e).
Proof using Hserver Huser Hpasswd.
  intros Hc He. unfold jira_login.
  rewrite (getattr_some _ _ _ Hserver), bind_ret_l.
  rewrite (getattr_some _ _ _ Huser), bind_ret_l.
  rewrite (getattr_some _ _ _ Hpasswd), bind_ret_l.
  rewrite JIRA_eq, Hc, bind_raised.
  destruct e; try reflexivity. exfalso. eapply He. reflexivity.
Qed.

Lemma update_jira_status_search_raises c release_name n new_value e :
  jira_connect w server user passwd = Returned c ->
  jira_search w c (search_query release_name n) = Raised e ->
  update_jira_status w self release_name n new_value =
    ([Log INFO (lit "Searching for Jira issues...");
      JiraConnect server user passwd;
      Log INFO (lit "Successfully logged into jira");
      JiraSearch (search_query release_name n)],
     Raised e).
Proof using Hserver Huser Hpasswd.
  intros Hc Hs. unfold update_jira_status, logging_info.
  rewrite bind_emit, (jira_login_ok _ _ _ _ _ Hserver Huser Hpasswd _ Hc), bind_returned.
  rewrite search_issues_eq, Hs, bind_raised. reflexivity.
Qed.

Lemma update_jira_status_update_raises c release_name n new_value pre i post e :
  jira_connect w server user passwd = Returned c ->
  jira_search w c (search_query release_name n) = Returned (pre ++ i :: post) ->
  Forall (fun j => jira_update w j (update_fields n new_value) = None) pre ->
  jira_update w i (update_fields n new_value) = Some e ->
  update_jira_status w self release_name n new_value =
    ([Log INFO (lit "Searching for Jira issues...");
      JiraConnect server user passwd;
      Log INFO (lit "Successfully logged into jira");
      JiraSearch (search_query release_name n);
      Log INFO (lit "Updating " ++ str_of_nat (length (pre ++ i :: post)) ++
                lit " Jira issues to Success (automated regression test)")] ++
     List.map (fun j => IssueUpdate j (update_fields n new_value)) (pre ++ [i]),
     Raised e).
Proof using Hserver Huser Hpasswd.
  intros Hc Hs Hpre Hi. unfold update_jira_status, logging_info.
  rewrite bind_emit, (jira_login_ok _ _ _ _ _ Hserver Huser Hpasswd _ Hc), bind_returned.
  rewrite search_issues_eq, Hs, bind_returned.
  destruct (pre ++ i :: post) as [|j l] eqn:E.
  { destruct pre; discriminate E. }
  rewrite <- E, bind_emit, (for_each_update_stops _ _ _ _ _ _ Hpre Hi), bind_raised.
  reflexivity.
Qed.

End Failures.

Lemma classic_JIRAError (e : exn) :
  (exists text, e = JIRAError text) \/ (forall text, e <> JIRAError text).
Proof. destruct e; try (right; discriminate). left. eexists. reflexivity. Qed.

(** X1. [jira_login] catches [JIRAError] and nothing else: any other
    exception of the [JIRA] constructor leaves [jira_login], and with it
    [update_jira_status], right after the connection attempt, with no
    further log line and no search. *)
Theorem login_passes_other_errors
    (w : World) (self : JiraStatusUpdater) (server user passwd : value)
    (e : exn) (release_name : str) (n : N) (new_value : str) :
  args self !! lit "jira_url" = Some server ->
  args self !! lit "jira_user" = Some user ->
  args self !! lit "jira_passwd" = Some passwd ->
  jira_connect w server user passwd = Raised e ->
  (forall text, e <> JIRAError text) ->
  jira_login w self = ([JiraConnect server user passwd], Raised e) /\
  update_jira_status w self release_name n new_value =
    ([Log INFO (lit "Searching for Jira issues...");
      JiraConnect server user passwd],
     Raised e).
Proof.
  intros Hserver Huser Hpasswd Hc He.
  pose proof (jira_login_other w self server user passwd Hserver Huser Hpasswd e Hc He)
    as Hlogin.
  split; [exact Hlogin|].
  unfold update_jira_status, logging_info. rewrite bind_emit, Hlogin, bind_raised.
  reflexivity.
Qed.

Lemma login_passes_other_errors_witness :
  update_jira_status
    (example_world 200 None (Raised (RequestException ConnectionError)) (Returned []))
    example_self (lit "Release-2.3") 10803 (lit "Success (automated regression test)") =
  ([Log INFO (lit "Searching for Jira issues...");
    JiraConnect (VStr (lit "http://jira")) (VStr (lit "robot")) (VStr (lit "secret"))],
   Raised (RequestException ConnectionError)).
Proof.
  refine (proj2 (login_passes_other_errors
    (example_world 200 None (Raised (RequestException ConnectionError)) (Returned []))
    example_self
    (VStr (lit "http://jira")) (VStr (lit "robot")) (VStr (lit "secret"))
    (RequestException ConnectionError) (lit "Release-2.3") 10803
    (lit "Success (automated regression test)") _ _ _ _ _));
    try (vm_compute; reflexivity).
  intros text. discriminate.
Defined.

(** X2. In every world, no [JIRAError] leaves [jira_login], and
    [jira_login] returns [None] exactly when the [JIRA] constructor, called
    with the three arguments of the namespace, raised a [JIRAError]. *)
Theorem jira_login_returns_None_iff (w : World) (self : JiraStatusUpdater) :
  (forall text, outcome (jira_login w self) <> Raised (JIRAError text)) /\
  (outcome (jira_login w self) = Returned None <->
   exists server user passwd text,
     args self !! lit "jira_url" = Some server /\
     args self !! lit "jira_user" = Some user /\
     args self !! lit "jira_passwd" = Some passwd /\
     jira_connect w server user passwd = Raised (JIRAError text)).
Proof.
  destruct (args self !! lit "jira_url") as [server|] eqn:Hserver; cycle 1.
  { unfold jira_login, getattr. rewrite Hserver, bind_raise_l.
    split; [discriminate|]. split; [discriminate|].
    intros (? & ? & ? & ? & H & _). discriminate H. }
  destruct (args self !! lit "jira_user") as [user|] eqn:Huser; cycle 1.
  { unfold jira_login, getattr. rewrite Hserver, bind_ret_l, Huser, bind_raise_l.
    split; [discriminate|]. split; [discriminate|].
    intros (? & ? & ? & ? & _ & H & _). discriminate H. }
  destruct (args self !! lit "jira_passwd") as [passwd|] eqn:Hpasswd; cycle 1.
  { unfold jira_login, getattr.
    rewrite Hserver, bind_ret_l, Huser, bind_ret_l, Hpasswd, bind_raise_l.
    split; [discriminate|]. split; [discriminate|].
    intros (? & ? & ? & ? & _ & _ & H & _). discriminate H. }
  destruct (jira_connect w server user passwd) as [c|e] eqn:Hc.
  - rewrite (jira_login_ok _ _ _ _ _ Hserver Huser Hpasswd _ Hc), outcome_pair.
    split; [discriminate|]. split; [discriminate|].
    intros (s & u & p & text & [= <-] & [= <-] & [= <-] & H). congruence.
  - destruct (classic_JIRAError e) as [[text ->]|He].
    + rewrite (jira_login_JIRAError _ _ _ _ _ Hserver Huser Hpasswd _ Hc), outcome_pair.
      split; [discriminate|]. split; [|reflexivity].
      intros _. exists server, user, passwd, text. auto.
    + rewrite (jira_login_other _ _ _ _ _ Hserver Huser Hpasswd _ Hc He), outcome_pair.
      split.
      { intros text Heq. injection Heq as Heq. exact (He text Heq). }
      split; [discriminate|].
      intros (s & u & p & text & [= <-] & [= <-] & [= <-] & H).
      rewrite Hc in H. injection H as H. exfalso. exact (He text H).
Qed.

(** X3. A search that raises ends the sync with that exception: no issue
    is updated and nothing more is logged. *)
Theorem search_error_is_fatal
    (w : World) (self : JiraStatusUpdater) (server user passwd : value)
    (c : JiraClient) (release_name : str) (n : N) (new_value : str) (e : exn) :
  args self !! lit "jira_url" = Some server ->
  args self !! lit "jira_user" = Some user ->
  args self !! lit "jira_passwd" = Some passwd ->
  jira_connect w server user passwd = Returned c ->
  jira_search w c (search_query release_name n) = Raised e ->
  update_jira_status w self release_name n new_value =
    ([Log INFO (lit "Searching for Jira issues...");
      JiraConnect server user passwd;
      Log INFO (lit "Successfully logged into jira");
      JiraSearch (search_query release_name n)],
     Raised e) /\
  List.filter is_issue_update
    (trace (update_jira_status w self release_name n new_value)) = [].
Proof.
  intros Hserver Huser Hpasswd Hc Hs.
  pose proof (update_jira_status_search_raises w self server user passwd
                Hserver Huser Hpasswd c release_name n new_value e Hc Hs) as Hrun.
  split; [exact Hrun|]. rewrite Hrun. reflexivity.
Qed.

Lemma search_error_is_fatal_witness :
  outcome (update_jira_status
    (example_world 200 None (Returned {| session := 1 |})
       (Raised (JIRAError (lit "HTTP 400"))))
    example_self (lit "Release 2.3") 10803 (lit "Success (automated regression test)")) =
  Raised (JIRAError (lit "HTTP 400")).
Proof.
  rewrite (proj1 (search_error_is_fatal
    (example_world 200 None (Returned {| session := 1 |})
       (Raised (JIRAError (lit "HTTP 400"))))
    example_self
    (VStr (lit "http://jira")) (VStr (lit "robot")) (VStr (lit "secret"))
    {| session := 1 |} (lit "Release 2.3") 10803
    (lit "Success (automated regression test)") (JIRAError (lit "HTTP 400"))
    ltac:(vm_compute; reflexivity) ltac:(vm_compute; reflexivity)
    ltac:(vm_compute; reflexivity) ltac:(reflexivity) ltac:(reflexivity))).
  reflexivity.
Defined.

(** X4. An update that raises stops the loop where it stands.  The issues
    before it have been updated, the issues after it are not touched, the
    exception leaves the sync, and the closing count line is not logged,
    although the opening line has announced the full count. *)
Theorem update_error_leaves_rest_untouched
    (w : World) (self : JiraStatusUpdater) (server user passwd : value)
    (c : JiraClient) (release_name : str) (n : N) (new_value : str)
    (pre : list Issue) (i : Issue) (post : list Issue) (e : exn) :
  args self !! lit "jira_url" = Some server ->
  args self !! lit "jira_user" = Some user ->
  args self !! lit "jira_passwd" = Some passwd ->
  jira_connect w server user passwd = Returned c ->
  jira_search w c (search_query release_name n) = Returned (pre ++ i :: post) ->
  Forall (fun j => jira_update w j (update_fields n new_value) = None) pre ->
  jira_update w i (update_fields n new_value) = Some e ->
  update_jira_status w self release_name n new_value =
    ([Log INFO (lit "Searching for Jira issues...");
      JiraConnect server user passwd;
      Log INFO (lit "Successfully logged into jira");
      JiraSearch (search_query release_name n);
      Log INFO (lit "Updating " ++ str_of_nat (length (pre ++ i :: post)) ++
                lit " Jira issues to Success (automated regression test)")] ++
     List.map (fun j => IssueUpdate j (update_fields n new_value)) (pre ++ [i]),
     Raised e) /\
  List.filter is_issue_update
    (trace (update_jira_status w self release_name n new_value)) =
    List.map (fun j => IssueUpdate j (update_fields n new_value)) (pre ++ [i]).
Proof.
  intros Hserver Huser Hpasswd Hc Hs Hpre Hi.
  pose proof (update_jira_status_update_raises w self server user passwd
                Hserver Huser Hpasswd c release_name n new_value pre i post e
                Hc Hs Hpre Hi) as Hrun.
  split; [exact Hrun|]. rewrite Hrun, trace_pair. cbn [app List.filter is_issue_update].
  generalize (pre ++ [i]). intros l. induction l as [|j l IH]; [reflexivity|].
  cbn [List.map List.filter is_issue_update]. rewrite IH. reflexivity.
Qed.

Lemma update_error_leaves_rest_untouched_witness :
  List.filter is_issue_update
    (trace (update_jira_status
      (example_world_refusing
         [ {| key := lit "ECS2-1" |}; {| key := lit "ECS2-2" |}; {| key := lit "ECS2-3" |} ]
         (lit "ECS2-2"))
      example_self (lit "Release-2.3") 10803
      (lit "Success (automated regression test)"))) =
  List.map (fun j => IssueUpdate j
              (update_fields 10803 (lit "Success (automated regression test)")))
    ([ {| key := lit "ECS2-1" |} ] ++ [ {| key := lit "ECS2-2" |} ]).
Proof.
  refine (proj2 (update_error_leaves_rest_untouched
    (example_world_refusing
       [ {| key := lit "ECS2-1" |}; {| key := lit "ECS2-2" |}; {| key := lit "ECS2-3" |} ]
       (lit "ECS2-2"))
    example_self
    (VStr (lit "http://jira")) (VStr (lit "robot")) (VStr (lit "secret"))
    {| session := 1 |} (lit "Release-2.3") 10803
    (lit "Success (automated regression test)")
    [ {| key := lit "ECS2-1" |} ] {| key := lit "ECS2-2" |}
    [ {| key := lit "ECS2-3" |} ] (JIRAError (lit "HTTP 403")) _ _ _ _ _ _ _));
    try (vm_compute; reflexivity).
  repeat constructor.
Defined.

(** ** The order of the calls to the tracker *)



Lemma jira_calls_log lvl msg t : jira_calls (Log lvl msg :: t) = jira_calls t.
Proof. reflexivity. Qed.

Lemma jira_calls_search jql t :
  jira_calls (JiraSearch jql :: t) = JiraSearch jql :: jira_calls t.
Proof. reflexivity. Qed.

Lemma jira_calls_nil : jira_calls [] = [].
Proof. reflexivity. Qed.

Ltac calls :=
  repeat (rewrite ?jira_calls_app, ?jira_calls_log, ?jira_calls_search,
            ?jira_calls_updates, ?jira_calls_nil, ?app_nil_r; cbn [app]).


(** ** The build data *)

(** X6. For any labelled, successful build: when the [JIRA] constructor
    raises a [JIRAError], the run logs the failed login at ERROR level and
    then ends in the [AttributeError] of calling [search_issues] on [None];
    no search and no update is issued. *)
Theorem login_JIRAError_ends_run_in_AttributeError
    (w : World) (self : JiraStatusUpdater)
    (url : value) (t : list event) (d : gmap str value) (name : str)
    (server user passwd : value) (text : str) :
  args self !! lit "jenkins_url" = Some url ->
  jenkins_query w url = (t, Returned (VDict d)) ->
  d !! lit "displayName" = Some (VStr name) ->
  re_match (unicode_Nd w) build_number_pattern name = false ->
  d !! lit "result" = Some (VStr (lit "SUCCESS")) ->
  args self !! lit "jira_url" = Some server ->
  args self !! lit "jira_user" = Some user ->
  args self !! lit "jira_passwd" = Some passwd ->
  jira_connect w server user passwd = Raised (JIRAError text) ->
  task1_check_jenkins_release w self =
    (t ++ [Log INFO (lit "Searching for Jira issues...");
           JiraConnect server user passwd;
           Log ERROR (lit "Login to JIRA failed because " ++ text)],
     Raised (AttributeError (lit "search_issues"))) /\
  jira_calls (trace (task1_check_jenkins_release w self)) =
    [JiraConnect server user passwd].
Proof.
  intros Hurl Hquery Hname Hm Hr Hserver Huser Hpasswd Hc.
  assert (Heq : eq_str (VStr (lit "SUCCESS")) (lit "SUCCESS") = true)
    by (apply eq_str_true; reflexivity).
  pose proof (task1_labelled_success _ _ _ _ _ _ Hurl Hquery Hname _ Hm Hr Heq) as Hrun.
  rewrite (update_jira_status_login_JIRAError w self server user passwd
             Hserver Huser Hpasswd text name 10803 _ Hc) in Hrun.
  rewrite trace_pair, outcome_pair in Hrun.
  split; [exact Hrun|]. rewrite Hrun, trace_pair. calls.
  pose proof (jenkins_query_no_jira w url) as Hj.
  rewrite Hquery, trace_pair in Hj. rewrite Hj. reflexivity.
Qed.

Lemma login_JIRAError_ends_run_in_AttributeError_witness :
  jira_calls (trace (task1_check_jenkins_release
    (example_world 200 (Some (example_build (lit "v1.4") (VStr (lit "SUCCESS"))))
       (Raised (JIRAError (lit "HTTP 403"))) (Returned example_issues))
    example_self)) =
  [JiraConnect (VStr (lit "http://jira")) (VStr (lit "robot")) (VStr (lit "secret"))].
Proof.
  refine (proj2 (login_JIRAError_ends_run_in_AttributeError
    (example_world 200 (Some (example_build (lit "v1.4") (VStr (lit "SUCCESS"))))
       (Raised (JIRAError (lit "HTTP 403"))) (Returned example_issues))
    example_self
    (VStr (lit "http://ci/job/sit/lastBuild/"))
    [Log INFO (lit "Fetching Jenkins data from http://ci/job/sit/lastBuild/");
     HttpGet (lit "http://ci/job/sit/lastBuild/api/json") 60]
    {[ lit "displayName" := VStr (lit "v1.4"); lit "result" := VStr (lit "SUCCESS") ]}
    (lit "v1.4")
    (VStr (lit "http://jira")) (VStr (lit "robot")) (VStr (lit "secret"))
    (lit "HTTP 403") _ _ _ _ _ _ _ _ _)); vm_compute; reflexivity.
Defined.

Section BuildData.
Variables (w : World) (self : JiraStatusUpdater) (url : value) (t : list event).
Hypothesis Hurl : args self !! lit "jenkins_url" = Some url.

Lemma task1_after_query data :
  jenkins_query w url = (t, Returned data) ->
  forall e, getitem data (lit "displayName") = raise e ->
  task1_check_jenkins_release w self = (t, Raised e).
Proof using Hurl.
  intros Hquery e He. unfold task1_check_jenkins_release.
  rewrite (getattr_some _ _ _ Hurl), bind_ret_l, Hquery, bind_returned.
  rewrite He, !bind_raise_l. unfold raise. rewrite trace_pair, outcome_pair, app_nil_r.
  reflexivity.
Qed.

Lemma task1_name_not_str d v :
  jenkins_query w url = (t, Returned (VDict d)) ->
  d !! lit "displayName" = Some v ->
  (forall s, v <> VStr s) ->
  task1_check_jenkins_release w self = (t, Raised TypeError).
Proof using Hurl.
  intros Hquery Hname Hv. unfold task1_check_jenkins_release.
  rewrite (getattr_some _ _ _ Hurl), bind_ret_l, Hquery, bind_returned.
  rewrite (getitem_some _ _ _ Hname), bind_ret_l.
  destruct v;
    try (unfold raise; rewrite trace_pair, outcome_pair, app_nil_r; reflexivity).
  exfalso. eapply Hv. reflexivity.
Qed.

Lemma task1_no_result d name :
  jenkins_query w url = (t, Returned (VDict d)) ->
  d !! lit "displayName" = Some (VStr name) ->
  re_match (unicode_Nd w) build_number_pattern name = false ->
  d !! lit "result" = None ->
  task1_check_jenkins_release w self = (t, Raised (KeyError (lit "result"))).
Proof using Hurl.
  intros Hquery Hname Hm Hr. unfold task1_check_jenkins_release.
  rewrite (getattr_some _ _ _ Hurl), bind_ret_l, Hquery, bind_returned.
  rewrite (getitem_some _ _ _ Hname), bind_ret_l, Hm.
  unfold getitem. rewrite Hr, !bind_raise_l. unfold raise.
  rewrite trace_pair, outcome_pair, app_nil_r. reflexivity.
Qed.

End BuildData.

(** X7. Build data of the wrong shape is fatal and stops the run right
    after the fetch, before the tracker is called: a JSON value that is no
    object or a display name that is no string gives a [TypeError], a
    missing [displayName] a [KeyError]; and a missing [result] gives a
    [KeyError] for a labelled build only, since an unlabelled build is
    logged and skipped without its result being read. *)
Theorem malformed_build_data_is_fatal
    (w : World) (self : JiraStatusUpdater)
    (url : value) (t : list event) (data : value) :
  args self !! lit "jenkins_url" = Some url ->
  jenkins_query w url = (t, Returned data) ->
  jira_calls t = [] /\
  ((forall d, data <> VDict d) ->
   task1_check_jenkins_release w self = (t, Raised TypeError)) /\
  (forall d, data = VDict d ->
     (d !! lit "displayName" = None ->
      task1_check_jenkins_release w self =
        (t, Raised (KeyError (lit "displayName")))) /\
     (forall v, d !! lit "displayName" = Some v -> (forall s, v <> VStr s) ->
      task1_check_jenkins_release w self = (t, Raised TypeError)) /\
     (forall name, d !! lit "displayName" = Some (VStr name) ->
      d !! lit "result" = None ->
      if re_match (unicode_Nd w) build_number_pattern name
      then task1_check_jenkins_release w self =
             (t ++ [Log INFO (name ++ lit " is an unlabelled release. Nothing to do")],
              Returned tt)
      else task1_check_jenkins_release w self =
             (t, Raised (KeyError (lit "result"))))).
Proof.
  intros Hurl Hquery. split.
  { pose proof (jenkins_query_no_jira w url) as Hj.
    rewrite Hquery, trace_pair in Hj. exact Hj. }
  split.
  { intros Hd. apply (task1_after_query w self url t Hurl data Hquery).
    destruct data; try reflexivity. exfalso. eapply Hd. reflexivity. }
  intros d ->. split; [|split].
  - intros Hname. apply (task1_after_query w self url t Hurl _ Hquery).
    unfold getitem. rewrite Hname. reflexivity.
  - intros v Hname Hv. exact (task1_name_not_str w self url t Hurl d v Hquery Hname Hv).
  - intros name Hname Hr.
    destruct (re_match (unicode_Nd w) build_number_pattern name) eqn:Hm.
    + exact (task1_unlabelled _ _ _ _ _ _ Hurl Hquery Hname Hm).
    + exact (task1_no_result w self url t Hurl d name Hquery Hname Hm Hr).
Qed.

Lemma malformed_build_data_is_fatal_witness :
  task1_check_jenkins_release
    (example_world 200 (Some (VDict {[ lit "displayName" := VStr (lit "v1.4") ]}))
       (Returned {| session := 1 |}) (Returned example_issues))
    example_self =
  ([Log INFO (lit "Fetching Jenkins data from http://ci/job/sit/lastBuild/");
    HttpGet (lit "http://ci/job/sit/lastBuild/api/json") 60],
   Raised (KeyError (lit "result"))).
Proof.
  destruct (malformed_build_data_is_fatal
    (example_world 200 (Some (VDict {[ lit "displayName" := VStr (lit "v1.4") ]}))
       (Returned {| session := 1 |}) (Returned example_issues))
    example_self
    (VStr (lit "http://ci/job/sit/lastBuild/"))
    [Log INFO (lit "Fetching Jenkins data from http://ci/job/sit/lastBuild/");
     HttpGet (lit "http://ci/job/sit/lastBuild/api/json") 60]
    (VDict {[ lit "displayName" := VStr (lit "v1.4") ]})
    ltac:(vm_compute; reflexivity) ltac:(vm_compute; reflexivity)) as (_ & _ & H).
  destruct (H _ eq_refl) as (_ & _ & Hname).
  exact (Hname (lit "v1.4") ltac:(vm_compute; reflexivity) ltac:(vm_compute; reflexivity)).
Defined.

(** ** The fetch *)

Lemma jenkins_query_returned_inv w url v :
  outcome (jenkins_query w url) = Returned v ->
  exists u r,
    url = VStr u /\ endswith u 47 = true /\
    http_get w (u ++ lit "api/json") 60 = inr r /\
    ~ (400 <= status_code r < 600) /\
    body_json r = Some v.
Proof.
  destruct url as [| | | |u| |]; try discriminate.
  destruct (endswith u 47) eqn:Hs; cycle 1.
  { rewrite (jenkins_query_no_slash _ _ Hs). discriminate. }
  rewrite (jenkins_query_slash _ _ Hs), outcome_pair.
  destruct (http_get w (u ++ lit "api/json") 60) as [e|r] eqn:Hget; [discriminate|].
  destruct ((400 <=? status_code r) && (status_code r <? 600)) eqn:Hst; [discriminate|].
  destruct (body_json r) as [v'|] eqn:Hbody; [|discriminate].
  intros [= <-]. exists u, r. repeat split; try assumption; try reflexivity.
  intros [H1 H2]. apply andb_false_iff in Hst as [H|H].
  - apply N.leb_gt in H. lia.
  - apply N.ltb_ge in H. lia.
Qed.

(** X8. [jenkins_query] returns a value exactly when its argument is a
    string ending in [/], the GET of [{url}api/json] comes back with a
    status outside 400..599, and the body of the response is JSON; the
    value is then the decoded body.  In every other case it raises. *)
Theorem jenkins_query_returns_iff (w : World) (url : value) (v : value) :
  outcome (jenkins_query w url) = Returned v <->
  exists u r,
    url = VStr u /\ endswith u 47 = true /\
    http_get w (u ++ lit "api/json") 60 = inr r /\
    ~ (400 <= status_code r < 600) /\
    body_json r = Some v.
Proof.
  split; [apply jenkins_query_returned_inv|].
  intros (u & r & -> & Hs & Hget & Hst & Hbody).
  rewrite (jenkins_query_slash _ _ Hs), outcome_pair, Hget, Hbody.
  destruct ((400 <=? status_code r) && (status_code r <? 600)) eqn:E; [|reflexivity].
  exfalso. apply Hst. apply andb_true_iff in E as [H1 H2].
  apply N.leb_le in H1. apply N.ltb_lt in H2. lia.
Qed.

(** ** The pattern, in full *)

Lemma at_eol_iff (s : str) : at_eol s = true <-> s = [] \/ s = [10].
Proof.
  split.
  - destruct s as [|c [|c' s]]; [left; reflexivity| |].
    + destruct (decide (c = 10)) as [->|Hne]; [right; reflexivity|].
      intros H. exfalso. apply Hne.
      destruct c as [|p]; [discriminate|].
      do 4 (destruct p as [p|p|]; try discriminate). reflexivity.
    + intros H. exfalso.
      destruct c as [|p]; [discriminate|].
      do 4 (destruct p as [p|p|]; try discriminate).
  - intros [->| ->]; reflexivity.
Qed.

(** X9. The pattern of an unlabelled build accepts exactly a hash sign
    followed by any number of digits (zero included; the digits of [\d],
    ASCII or not) and, optionally, one final newline.  So a display name
    with text before the hash sign, or with anything but digits after it,
    is a labelled release, and [#123] followed by a newline is not. *)
Theorem build_number_pattern_accepts (nd : char -> bool) (s : str) :
  re_match nd build_number_pattern s = true <->
  exists ds,
    forallb (fun c => is_ascii_digit c || nd c) ds = true /\
    (s = 35 :: ds \/ s = 35 :: ds ++ [10]).
Proof.
  rewrite build_number_pattern_iff. split.
  - intros (ds & tl & -> & Hds & Htl). exists ds. split; [exact Hds|].
    apply at_eol_iff in Htl as [->| ->]; [left; rewrite app_nil_r|right]; reflexivity.
  - intros (ds & Hds & [->| ->]).
    + exists ds, []. rewrite app_nil_r. repeat split. exact Hds.
    + exists ds, [10]. repeat split. exact Hds.
Qed.

(** ** One request, and first *)






(** ** The command line and the environment *)






Lemma add_argument_none p flag v :
  add_argument p flag v = None <-> find_option p flag <> None.
Proof.
  unfold add_argument. destruct (find_option p flag); split; try discriminate;
    congruence.
Qed.

Lemma find_option_fresh p q o :
  find_option p o = None -> find_option q o = None -> find_option (p ++ q) o = None.
Proof. intros Hp Hq. rewrite find_option_app, Hp. exact Hq. Qed.

(** X12. Making the parser fails, with the [ArgumentError] of
    [add_argument], exactly when the parser of the base class has taken one
    of the four option strings already; otherwise the parser is that of
    the base class followed by the four options in the order of the
    source, each with the value its variable had when the parser was made
    as default. *)
Theorem argparser_fails_iff_flag_taken
    (environ : gmap str str) (batch : ArgumentParser) :
  (argparser environ batch = None <->
   exists flag,
     In flag [lit "--jenkins_url"; lit "--jira_url"; lit "--jira_user";
              lit "--jira_passwd"] /\
     find_option batch flag <> None) /\
  (forall p, argparser environ batch = Some p ->
   p = batch ++
       [store_action (lit "--jenkins_url") (lit "jenkins_url")
          (getenv environ (lit "JENKINS_URL"));
        store_action (lit "--jira_url") (lit "jira_url")
          (getenv environ (lit "JIRA_URL"));
        store_action (lit "--jira_user") (lit "jira_user")
          (getenv environ (lit "JIRA_USER"));
        store_action (lit "--jira_passwd") (lit "jira_passwd")
          (getenv environ (lit "JIRA_PASSWD"))]).
Proof.
  unfold argparser. split; [|intros p Hp; exact (proj1 (init_parser _ _ _ Hp))].
  split.
  - intros Hnone. unfold JiraStatusUpdater__init__ in Hnone.
    destruct (add_argument batch _ _) as [p1|] eqn:H1; cycle 1.
    { exists (lit "--jenkins_url"). split; [cbn; tauto|].
      apply add_argument_none in H1. exact H1. }
    cbn [mbind option_bind] in Hnone.
    apply add_argument_some in H1 as [F1 ->].
    destruct (add_argument _ (lit "--jira_url") _) as [p2|] eqn:H2; cycle 1.
    { exists (lit "--jira_url"). split; [cbn; tauto|].
      apply add_argument_none in H2. intros Hb. apply H2.
      apply find_option_fresh; [exact Hb|vm_compute; reflexivity]. }
    cbn [mbind option_bind] in Hnone.
    apply add_argument_some in H2 as [F2 ->].
    destruct (add_argument _ (lit "--jira_user") _) as [p3|] eqn:H3; cycle 1.
    { exists (lit "--jira_user"). split; [cbn; tauto|].
      apply add_argument_none in H3. intros Hb. apply H3.
      repeat (apply find_option_fresh; [|vm_compute; reflexivity]). exact Hb. }
    cbn [mbind option_bind] in Hnone.
    apply add_argument_some in H3 as [F3 ->].
    exists (lit "--jira_passwd"). split; [cbn; tauto|].
    apply add_argument_none in Hnone. intros Hb. apply Hnone.
    repeat (apply find_option_fresh; [|vm_compute; reflexivity]). exact Hb.
  - intros (flag & Hin & Hflag).
    destruct (JiraStatusUpdater__init__ environ batch) as [p|] eqn:Hinit;
      [|reflexivity].
    exfalso. apply init_parser in Hinit as (_ & F1 & F2 & F3 & F4).
    destruct Hin as [<-|[<-|[<-|[<-|[]]]]]; contradiction.
Qed.

Lemma argparser_fails_iff_flag_taken_witness :
  example_parser =
  example_batch_parser ++
  [store_action (lit "--jenkins_url") (lit "jenkins_url")
     (getenv example_environ (lit "JENKINS_URL"));
   store_action (lit "--jira_url") (lit "jira_url")
     (getenv example_environ (lit "JIRA_URL"));
   store_action (lit "--jira_user") (lit "jira_user")
     (getenv example_environ (lit "JIRA_USER"));
   store_action (lit "--jira_passwd") (lit "jira_passwd")
     (getenv example_environ (lit "JIRA_PASSWD"))].
Proof.
  apply (proj2 (argparser_fails_iff_flag_taken example_environ example_batch_parser)).
  vm_compute. reflexivity.
Defined.

Lemma set_default_keeps ns a k :
  is_Some (ns !! k) -> is_Some (set_default ns a !! k).
Proof.
  intros Hk. unfold set_default.
  destruct (kind a), (ns !! dest a) eqn:E; try exact Hk;
    (destruct (decide (dest a = k)) as [<-|Hne];
      [rewrite lookup_insert_eq; eauto|rewrite lookup_insert_ne; assumption]).
Qed.

Lemma defaults_keep q ns k :
  is_Some (ns !! k) -> is_Some (foldl set_default ns q !! k).
Proof.
  revert ns. induction q as [|a q IH]; intros ns Hk; [exact Hk|].
  cbn [foldl]. apply IH, set_default_keeps, Hk.
Qed.

Lemma set_default_store_is_Some ns flag k v :
  is_Some (set_default ns (store_action flag k v) !! k).
Proof.
  unfold set_default. cbn [kind dest default store_action].
  destruct (ns !! k) eqn:E; [rewrite E; eauto|rewrite lookup_insert_eq; eauto].
Qed.

Lemma consume_keeps p k n :
  forall argv ns ns',
    (length argv <= n)%nat ->
    consume p argv ns = Some ns' ->
    is_Some (ns !! k) ->
    is_Some (ns' !! k).
Proof.
  assert (Hins : forall (ns : gmap str value) j v,
            is_Some (ns !! k) -> is_Some (<[j:=v]> ns !! k)).
  { intros ns j v Hk. destruct (decide (j = k)) as [->|Hne];
      [rewrite lookup_insert_eq; eauto|rewrite lookup_insert_ne; assumption]. }
  induction n as [|n IH]; intros [|tok rest] ns ns' Hlen Hrun Hk;
    cbn [length] in Hlen; try lia.
  - injection Hrun as <-. exact Hk.
  - injection Hrun as <-. exact Hk.
  - cbn [consume] in Hrun.
    destruct (parse_optional p tok) as [|a explicit_arg| |]; try discriminate Hrun.
    destruct (kind a), explicit_arg as [v|]; try discriminate Hrun.
    + apply (IH rest _ _ ltac:(lia) Hrun). apply Hins, Hk.
    + destruct rest as [|v rest']; [discriminate Hrun|].
      destruct (parse_optional p v); try discriminate Hrun.
      cbn [length] in Hlen.
      apply (IH rest' _ _ ltac:(lia) Hrun). apply Hins, Hk.
    + apply (IH rest _ _ ltac:(lia) Hrun). apply Hins, Hk.
Qed.

(** X13. After [__init__] and a command line that parses, the namespace
    has the four attributes the script reads, whatever the environment, the
    parser of the base class and the command line are: reading
    [self.args.jenkins_url], [jira_url], [jira_user] or [jira_passwd] never
    raises an [AttributeError]. *)
Theorem parsed_namespace_has_the_four_attributes
    (environ : gmap str str) (batch p : ArgumentParser)
    (argv : list str) (ns : gmap str value) (key : str) :
  JiraStatusUpdater__init__ environ batch = Some p ->
  parse_args p argv = Some ns ->
  In key [lit "jenkins_url"; lit "jira_url"; lit "jira_user"; lit "jira_passwd"] ->
  exists v, getattr (args (with_args ns)) key = ret v.
Proof.
  intros Hinit Hparse Hkey.
  assert (Hsome : is_Some (ns !! key)).
  { unfold parse_args in Hparse.
    apply (consume_keeps p key (length argv) argv _ _ (le_n _) Hparse).
    apply init_parser in Hinit as (-> & _). unfold defaults. rewrite foldl_app.
    generalize (foldl set_default ∅ batch). intros ns0. cbn [foldl].
    destruct Hkey as [<-|[<-|[<-|[<-|[]]]]].
    - do 3 apply set_default_keeps. apply set_default_store_is_Some.
    - do 2 apply set_default_keeps. apply set_default_store_is_Some.
    - apply set_default_keeps. apply set_default_store_is_Some.
    - apply set_default_store_is_Some. }
  destruct Hsome as [v Hv]. exists v. apply getattr_some. exact Hv.
Qed.

Lemma parsed_namespace_has_the_four_attributes_witness :
  exists v, getattr (args (with_args example_bare_namespace)) (lit "jira_passwd") = ret v.
Proof.
  refine (parsed_namespace_has_the_four_attributes
    ∅ example_batch_parser example_bare_parser [] example_bare_namespace
    (lit "jira_passwd") _ _ _); try (vm_compute; reflexivity).
  do 3 right. left. reflexivity.
Defined.


(** X14. A run with no url at all, the variable [JENKINS_URL] unset and
    [--jenkins_url] not on the command line, has [None] as its url and
    ends in the [AttributeError] of [None.endswith] before anything is
    logged, fetched or sent to the tracker. *)
Theorem no_url_stops_before_fetch
    (w : World) (environ : gmap str str) (batch p : ArgumentParser)
    (argv : list str) (ns : gmap str value) :
  Forall (fun a => ~ In (dest a)
            [lit "jenkins_url"; lit "jira_url"; lit "jira_user"; lit "jira_passwd"])
         batch ->
  environ !! lit "JENKINS_URL" = None ->
  JiraStatusUpdater__init__ environ batch = Some p ->
  parse_args p argv = Some ns ->
  supplied p (lit "jenkins_url") argv = false ->
  ns !! lit "jenkins_url" = Some VNone /\
  task1_check_jenkins_release w (with_args ns) =
    ([], Raised (AttributeError (lit "endswith"))).
Proof.
  intros Hbatch Henv Hinit Hparse Hsup.
  assert (Hurl : ns !! lit "jenkins_url" = Some VNone).
  { unfold parse_args in Hparse.
    rewrite (consume_preserves p _ (length argv) argv _ _ (le_n _) Hparse Hsup).
    rewrite (proj1 (init_defaults _ _ _ Hbatch Hinit)).
    unfold getenv. rewrite Henv. reflexivity. }
  split; [exact Hurl|].
  unfold task1_check_jenkins_release, with_args. cbn [args].
  rewrite (getattr_some _ _ _ Hurl), bind_ret_l. reflexivity.
Qed.

Lemma no_url_stops_before_fetch_witness :
  task1_check_jenkins_release
    (example_world 200 None (Returned {| session := 1 |}) (Returned []))
    (with_args example_bare_namespace) =
  ([], Raised (AttributeError (lit "endswith"))).
Proof.
  refine (proj2 (no_url_stops_before_fetch
    (example_world 200 None (Returned {| session := 1 |}) (Returned []))
    ∅ example_batch_parser example_bare_parser [] example_bare_namespace
    _ _ _ _ _)); try (vm_compute; reflexivity).
  repeat constructor; vm_compute; intuition discriminate.
Defined.



(** ** The text of the search *)

Lemma lit_inj (x y : string) : lit x = lit y -> x = y.
Proof.
  unfold lit. intros H.
  rewrite <- (string_of_list_ascii_of_string x), <- (string_of_list_ascii_of_string y).
  f_equal. revert H. generalize (list_ascii_of_string x), (list_ascii_of_string y).
  intros l. induction l as [|a l IH]; intros [|b m] H; try discriminate H;
    [reflexivity|].
  cbn [List.map] in H. injection H as Hab Hlm. f_equal; [|exact (IH _ Hlm)].
  rewrite <- (ascii_N_embedding a), <- (ascii_N_embedding b), Hab. reflexivity.
Qed.

(** X16. The text of the search tells releases apart and fields apart:
    for one field, two release names with the same search text are the
    same name, and for one release, two field numbers with the same search
    text are the same number. *)
Theorem search_query_injective (name name' : str) (n n' : N) :
  (search_query name n = search_query name' n -> name = name') /\
  (search_query name n = search_query name n' -> n = n').
Proof.
  unfold search_query. split; intros H.
  - apply app_inv_head in H. apply app_inv_tail in H. exact H.
  - do 3 apply app_inv_head in H. apply app_inv_tail in H.
    unfold str_of_N in H. apply lit_inj in H. exact (pretty_N_inj _ _ H).
Qed.

Lemma search_query_injective_witness :
  lit "Release-2.3" = lit "Release-2.3" /\ 10803 = 10803.
Proof.
  split.
  - apply (proj1 (search_query_injective (lit "Release-2.3") (lit "Release-2.3")
                    10803 10803)). reflexivity.
  - apply (proj2 (search_query_injective (lit "Release-2.3") (lit "Release-2.3")
                    10803 10803)). reflexivity.
Defined.

(** ** Error lines *)





